(** * Cost breakdown of the most expensive services

    A shallow embedding of
    [src/expensive_services_detail/breakdown_of_expensive_service.py]: the two
    functions [breakdown_service_cost] and [lambda_handler], over a model of
    the Python values they handle, of the exceptions they raise or catch and
    of the three collaborators they call (the Cost Explorer client, the
    [json] module and [logging]). *)

From Stdlib Require Import ZArith QArith List String Ascii Bool Lia SetoidList.
From Stdlib Require Import DecimalString.
Import ListNotations.

Local Set Warnings "-register-all".
Local Close Scope Q_scope.
Local Open Scope string_scope.
Local Open Scope list_scope.

(** ** Python values *)

(** The values the program handles are the ones [json.loads] produces and the
    ones a boto3 response is made of.  A float is given by its exact rational
    value (every finite double is one); the non-finite floats, which
    [json.loads] only produces for the literals NaN and Infinity, are not
    represented.  A dict is the list of its items in insertion order. *)
Inductive pyval : Type :=
| PNone
| PBool (b : bool)
| PInt (n : Z)
| PFloat (x : Q)
| PStr (s : string)
| PList (items : list pyval)
| PDict (items : list (pyval * pyval)).

Definition dict : Type := list (pyval * pyval).

(** [type(v).__name__] *)
Definition type_name (v : pyval) : string :=
  match v with
  | PNone => "NoneType"
  | PBool _ => "bool"
  | PInt _ => "int"
  | PFloat _ => "float"
  | PStr _ => "str"
  | PList _ => "list"
  | PDict _ => "dict"
  end.

(** Lists and dicts have no [__hash__]; every other value can be a key. *)
Definition hashable (v : pyval) : bool :=
  match v with
  | PList _ | PDict _ => false
  | _ => true
  end.

Definition is_str (v : pyval) : bool :=
  match v with
  | PStr _ => true
  | _ => false
  end.

(** Booleans, ints and floats compare (and hash) by numeric value:
    [True == 1 == 1.0]. *)
Definition number_of (v : pyval) : option Q :=
  match v with
  | PBool b => Some (if b then 1%Q else 0%Q)
  | PInt n => Some (inject_Z n)
  | PFloat x => Some x
  | _ => None
  end.

(** Equality of two values as dict keys. *)
Definition key_eqb (a b : pyval) : bool :=
  match a, b with
  | PNone, PNone => true
  | PStr s, PStr t => String.eqb s t
  | _, _ =>
      match number_of a, number_of b with
      | Some x, Some y => Qeq_bool x y
      | _, _ => false
      end
  end.

Definition key_eq (a b : pyval) : Prop := key_eqb a b = true.

(** [k in d] and [d.get(k)] for a hashable [k]. *)
Fixpoint dict_get (d : dict) (k : pyval) : option pyval :=
  match d with
  | [] => None
  | (k', v) :: rest => if key_eqb k' k then Some v else dict_get rest k
  end.

(** The dict after [d[k] = v], for a hashable [k]: an existing key keeps its
    position (and the key object first inserted), a new key goes last. *)
Fixpoint dict_put (d : dict) (k v : pyval) : dict :=
  match d with
  | [] => [(k, v)]
  | (k', v') :: rest =>
      if key_eqb k' k then (k', v) :: rest else (k', v') :: dict_put rest k v
  end.

Definition dict_keys (d : dict) : list pyval := map fst d.

(** ** Exceptions *)

(** The classes the program meets.  Each derives from [Exception], so the
    clause [except Exception] matches every value of [exn]. *)
Inductive exn_class : Type :=
| KeyError
| TypeError
| JSONDecodeError
| ClientError
| EndpointConnectionError
| ParamValidationError
| OtherException (name : string).

(** An exception: its class and [str(e)]. *)
Record exn : Type := mk_exn { exn_class_of : exn_class; exn_str : string }.

Inductive result (A : Type) : Type :=
| Ok (a : A)
| Raise (e : exn).
Arguments Ok {A} a.
Arguments Raise {A} e.

Definition quote (s : string) : string := "'" ++ s ++ "'".

(** [v[key]] for a [str] key, the only subscripts the program writes. *)
Definition getitem (v : pyval) (key : string) : result pyval :=
  match v with
  | PDict d =>
      match dict_get d (PStr key) with
      | Some x => Ok x
      | None => Raise (mk_exn KeyError (quote key))
      end
  | PList _ =>
      Raise (mk_exn TypeError "list indices must be integers or slices, not str")
  | PStr _ =>
      Raise (mk_exn TypeError "string indices must be integers, not 'str'")
  | _ =>
      Raise (mk_exn TypeError (quote (type_name v) ++ " object is not subscriptable"))
  end.

(** [d[k] = v] *)
Definition setitem (d : dict) (k v : pyval) : result dict :=
  if hashable k then Ok (dict_put d k v)
  else Raise (mk_exn TypeError ("unhashable type: " ++ quote (type_name k))).

Fixpoint chars (s : string) : list pyval :=
  match s with
  | EmptyString => []
  | String c rest => PStr (String c EmptyString) :: chars rest
  end.

(** The items a [for] loop over [v] visits: the elements of a list, the keys
    of a dict, the characters of a string. *)
Definition iterate (v : pyval) : result (list pyval) :=
  match v with
  | PList items => Ok items
  | PDict d => Ok (dict_keys d)
  | PStr s => Ok (chars s)
  | _ => Raise (mk_exn TypeError (quote (type_name v) ++ " object is not iterable"))
  end.

(** ** The collaborators *)

(** What the module imports and does not define: the Cost Explorer client
    [ce_client] (its answers depend on a state of the outside world, which a
    call may change), [json.loads] on a string, [json.dumps], and [repr]. *)
Class Runtime : Type := {
  World : Type;
  get_cost_and_usage : pyval -> World -> result dict * World;
  json_decode : string -> result pyval;
  json_dumps : pyval -> string;
  py_repr : pyval -> string
}.

(** One call of the billing API: its keyword arguments and its outcome. *)
Definition api_event : Type := (pyval * result dict)%type.

Inductive log_record : Type :=
| LogError (msg : string)
| LogInfo (msg : pyval).

Section Program.

Context {R : Runtime}.

(** The state a run threads: the outside world, the calls made to the
    billing API so far, and the records handed to [logging]. *)
Record state : Type := mk_state {
  world : World;
  calls : list api_event;
  log : list log_record
}.

(** A computation that reads and writes the state and returns or raises. *)
Definition M (A : Type) : Type := state -> result A * state.

Definition ret {A} (a : A) : M A := fun st => (Ok a, st).

Definition bind {A B} (m : M A) (k : A -> M B) : M B :=
  fun st =>
    match m st with
    | (Ok a, st') => k a st'
    | (Raise e, st') => (Raise e, st')
    end.

Definition lift {A} (r : result A) : M A := fun st => (r, st).

(** [try: body except Exception as e: handler e] *)
Definition try_except {A} (body : M A) (handler : exn -> M A) : M A :=
  fun st =>
    match body st with
    | (Ok a, st') => (Ok a, st')
    | (Raise e, st') => handler e st'
    end.

Notation "x <- m ;; k" := (bind m (fun x => k))
  (at level 61, m at next level, right associativity).
Notation "m ;;; k" := (bind m (fun _ => k))
  (at level 61, right associativity).

(** [ce_client.get_cost_and_usage] called with the keyword arguments
    [kwargs]; the call is recorded with its outcome. *)
Definition ce_client_get_cost_and_usage (kwargs : pyval) : M dict :=
  fun st =>
    let (outcome, w) := get_cost_and_usage kwargs (world st) in
    (outcome, mk_state w (calls st ++ [(kwargs, outcome)]) (log st)).

Definition logging_error (msg : string) : M unit :=
  fun st => (Ok tt, mk_state (world st) (calls st) (log st ++ [LogError msg])).

Definition logging_info (msg : pyval) : M unit :=
  fun st => (Ok tt, mk_state (world st) (calls st) (log st ++ [LogInfo msg])).

(** [json.loads(v)] *)
Definition json_loads (v : pyval) : result pyval :=
  match v with
  | PStr s => json_decode s
  | _ =>
      Raise (mk_exn TypeError
               ("the JSON object must be str, bytes or bytearray, not " ++ type_name v))
  end.

(** [str(v)], as an f-string field formats it. *)
Definition py_str (v : pyval) : string :=
  match v with
  | PStr s => s
  | _ => py_repr v
  end.

(** ** The program *)

(** The keyword arguments of the call at lines 37-48. *)
Definition cost_query (service account_id start_date end_date : pyval) : pyval :=
  PDict
    [ (PStr "TimePeriod", PDict [(PStr "Start", start_date); (PStr "End", end_date)]);
      (PStr "Granularity", PStr "DAILY");
      (PStr "Metrics", PList [PStr "UnblendedCost"]);
      (PStr "GroupBy",
        PList [PDict [(PStr "Type", PStr "DIMENSION"); (PStr "Key", PStr "USAGE_TYPE")]]);
      (PStr "Filter",
        PDict
          [ (PStr "And",
              PList
                [ PDict
                    [ (PStr "Dimensions",
                        PDict [(PStr "Key", PStr "SERVICE"); (PStr "Values", PList [service])]) ];
                  PDict
                    [ (PStr "Dimensions",
                        PDict
                          [ (PStr "Key", PStr "LINKED_ACCOUNT");
                            (PStr "Values", PList [account_id]) ]) ] ]) ]) ].

Definition breakdown_service_cost
    (service account_id start_date end_date : pyval) : M pyval :=
  try_except
    (response <- ce_client_get_cost_and_usage
                   (cost_query service account_id start_date end_date) ;;
     lift (getitem (PDict response) "ResultsByTime"))
    (fun e =>
       logging_error
         ("Error fetching cost breakdown for " ++ py_str service ++ ": " ++ exn_str e) ;;;
       ret PNone).

(** The loop of lines 77-81 over the items still to visit. *)
Fixpoint for_services (services : list pyval)
    (account_id start_date end_date : pyval) (cost_breakdown : dict) : M dict :=
  match services with
  | [] => ret cost_breakdown
  | service_data :: rest =>
      service_name <- lift (getitem service_data "Service") ;;
      breakdown <- breakdown_service_cost service_name account_id start_date end_date ;;
      cost_breakdown' <- lift (setitem cost_breakdown service_name breakdown) ;;
      for_services rest account_id start_date end_date cost_breakdown'
  end.

Definition lambda_handler (event context : pyval) : M pyval :=
  services_text <- lift (getitem event "services") ;;
  services <- lift (json_loads services_text) ;;
  start_date <- lift (getitem event "start_date") ;;
  end_date <- lift (getitem event "end_date") ;;
  account_id <- lift (getitem event "account_id") ;;
  items <- lift (iterate services) ;;
  cost_breakdown <- for_services items account_id start_date end_date [] ;;
  logging_info (PDict cost_breakdown) ;;;
  ret (PDict [ (PStr "statusCode", PInt 200);
               (PStr "body", PStr (json_dumps (PDict cost_breakdown))) ]).

End Program.

(** ** Observations on a run

    The vocabulary the properties are stated in. *)

(** The [Service] value of an entry of the decoded [services] array, when the
    entry is an object that has that key. *)
Definition service_of (entry : pyval) : option pyval :=
  match entry with
  | PDict d => dict_get d (PStr "Service")
  | _ => None
  end.

(** What a call of the billing API leaves to store: the [ResultsByTime] of
    the response, and [None] when the call raised or the response has no
    such key. *)
Definition result_of_call (outcome : result dict) : pyval :=
  match outcome with
  | Ok response =>
      match getitem (PDict response) "ResultsByTime" with
      | Ok results => results
      | Raise _ => PNone
      end
  | Raise _ => PNone
  end.

(** [t] occurs in [s]. *)
Definition contains (s t : string) : Prop :=
  exists before after : string, s = (before ++ t ++ after)%string.

(** The keys of the event besides [services], in the order the handler reads
    them. *)
Definition other_keys : list string := ["start_date"; "end_date"; "account_id"].

Definition response_200 (body : string) : pyval :=
  PDict [(PStr "statusCode", PInt 200); (PStr "body", PStr body)].

(** The items of [l] without those equal, as keys, to an item before them. *)
Fixpoint first_occurrences (l : list pyval) : list pyval :=
  match l with
  | [] => []
  | x :: rest => x :: filter (fun y => negb (key_eqb x y)) (first_occurrences rest)
  end.

(** The keys of a dict after an assignment under [k]. *)
Definition add_key (keys : list pyval) (k : pyval) : list pyval :=
  if existsb (fun k' => key_eqb k' k) keys then keys else keys ++ [k].

Section Observations.

Context {R : Runtime}.

(** The state with the world of [st] and no call made, no record logged. *)
Definition blank (st : state) : state := mk_state (world st) [] [].

(** The state after a run that started in [st] and did, from [blank st],
    what [delta] holds. *)
Definition after (st delta : state) : state :=
  mk_state (world delta) (calls st ++ calls delta) (log st ++ log delta).

(** The billing API called with each of [queries] in turn, every call in the
    world the call before left: the calls with their outcomes, and the world
    after the last. *)
Fixpoint api_run (queries : list pyval) (w : World) : list api_event * World :=
  match queries with
  | [] => ([], w)
  | query :: rest =>
      let (outcome, w1) := get_cost_and_usage query w in
      let (events, w2) := api_run rest w1 in
      ((query, outcome) :: events, w2)
  end.

(** The report after the calls [events] made for [names], in order, from the
    report [acc]. *)
Definition report_of (names : list pyval) (events : list api_event) (acc : dict) : dict :=
  fold_left
    (fun d (p : pyval * api_event) => dict_put d (fst p) (result_of_call (snd (snd p))))
    (combine names events) acc.

(** The message logged for the exception [e] caught while querying [service]. *)
Definition error_message (service : pyval) (e : exn) : string :=
  ("Error fetching cost breakdown for " ++ py_str service ++ ": " ++ exn_str e)%string.

(** The last of the calls [events], made for [names] in order, whose name
    equals the key [k]. *)
Fixpoint latest_call (names : list pyval) (events : list api_event) (k : pyval)
    : option api_event :=
  match names, events with
  | name :: names', ev :: events' =>
      match latest_call names' events' k with
      | Some ev' => Some ev'
      | None => if key_eqb name k then Some ev else None
      end
  | _, _ => None
  end.

(** The exception the [try] block of a query ends with, if any: the one the
    call raised, or the [KeyError] of a response without [ResultsByTime]. *)
Definition caught (outcome : result dict) : option exn :=
  match outcome with
  | Ok response =>
      match getitem (PDict response) "ResultsByTime" with
      | Ok _ => None
      | Raise e => Some e
      end
  | Raise e => Some e
  end.

(** What the calls [events] made for [names] leave in the log. *)
Definition error_log (service : pyval) (outcome : result dict) : list log_record :=
  match caught outcome with
  | Some e => [LogError (error_message service e)]
  | None => []
  end.

Definition error_logs (names : list pyval) (events : list api_event) : list log_record :=
  flat_map (fun p : pyval * api_event => error_log (fst p) (snd (snd p)))
    (combine names events).

End Observations.

(** A call failed, for the program, when the [try] block around it ended
    with an exception. *)
Definition failed (ev : api_event) : bool :=
  match caught (snd ev) with
  | Some _ => true
  | None => false
  end.

(** The report that holds [None] under each of [keys]. *)
Definition all_None (keys : list pyval) : dict := map (fun k => (k, PNone)) keys.

(** ** A reference runtime

    One instance of [Runtime], with which the program runs on concrete
    events: a decoder and an encoder for the ASCII fragment of JSON, a
    [repr], and a scripted billing API.  The decoder reports an error by its
    class and a short message, without the position Python appends, and
    rejects the literals NaN and Infinity, which have no value here.  No
    theorem about the program depends on this instance: they hold for every
    runtime. *)
Module Reference.

Local Open Scope Z_scope.
Local Open Scope string_scope.

Definition dq : ascii := "034"%char.
Definition backslash : ascii := "\"%char.

Definition is_ws (c : ascii) : bool :=
  match c with
  | " "%char | "009"%char | "010"%char | "013"%char => true
  | _ => false
  end.

Fixpoint skip_ws (s : string) : string :=
  match s with
  | String c rest => if is_ws c then skip_ws rest else s
  | EmptyString => s
  end.

Definition is_digit (c : ascii) : bool :=
  let n := nat_of_ascii c in (48 <=? n)%nat && (n <=? 57)%nat.

Definition digit_val (c : ascii) : Z := Z.of_nat (nat_of_ascii c) - 48.

(** The digits [s] starts with: their value after [acc], how many there are,
    and the rest of [s]. *)
Fixpoint take_digits (s : string) (acc : Z) (n : nat) : Z * nat * string :=
  match s with
  | String c rest =>
      if is_digit c then take_digits rest (acc * 10 + digit_val c) (S n)
      else (acc, n, s)
  | EmptyString => (acc, n, s)
  end.

Fixpoint strip_prefix (p s : string) : option string :=
  match p, s with
  | EmptyString, _ => Some s
  | String a p', String b s' => if Ascii.eqb a b then strip_prefix p' s' else None
  | _, EmptyString => None
  end.

Definition unescape (c : ascii) : option ascii :=
  if Ascii.eqb c dq then Some dq
  else if Ascii.eqb c backslash then Some backslash
  else match c with
       | "/"%char => Some "/"%char
       | "b"%char => Some "008"%char
       | "f"%char => Some "012"%char
       | "n"%char => Some "010"%char
       | "r"%char => Some "013"%char
       | "t"%char => Some "009"%char
       | _ => None
       end.

(** A string literal after its opening quote; [\u] escapes are outside the
    fragment. *)
Fixpoint string_tail (s : string) : option (string * string) :=
  match s with
  | EmptyString => None
  | String c rest =>
      if Ascii.eqb c dq then Some (EmptyString, rest)
      else if Ascii.eqb c backslash then
        match rest with
        | String e rest' =>
            match unescape e, string_tail rest' with
            | Some c', Some (t, r) => Some (String c' t, r)
            | _, _ => None
            end
        | EmptyString => None
        end
      else if (nat_of_ascii c <? 32)%nat then None
      else
        match string_tail rest with
        | Some (t, r) => Some (String c t, r)
        | None => None
        end
  end.

(** A number literal.  Without fraction and exponent it is an int; otherwise
    a float, here with the literal's exact decimal value (Python rounds it to
    the nearest double). *)
Definition number (s : string) : option (pyval * string) :=
  let (sign, s1) :=
    match s with
    | String "-"%char r => (-1, r)
    | _ => (1, s)
    end in
  let '(ip, n_int, r1) :=
    match s1 with
    | String "0"%char r => (0, 1%nat, r)
    | _ => take_digits s1 0 0
    end in
  match n_int with
  | O => None
  | S _ =>
      let frac :=
        match r1 with
        | String "."%char r =>
            let '(fv, fn, r2) := take_digits r 0 0 in
            match fn with
            | O => None
            | S _ => Some (Some (fv, fn), r2)
            end
        | _ => Some (None, r1)
        end in
      match frac with
      | None => None
      | Some (fr, r2) =>
          let expo :=
            match r2 with
            | String c r =>
                if Ascii.eqb c "e"%char || Ascii.eqb c "E"%char then
                  let (esign, r3) :=
                    match r with
                    | String "-"%char r' => (-1, r')
                    | String "+"%char r' => (1, r')
                    | _ => (1, r)
                    end in
                  let '(ev, en, r4) := take_digits r3 0 0 in
                  match en with
                  | O => None
                  | S _ => Some (Some (esign * ev), r4)
                  end
                else Some (None, r2)
            | EmptyString => Some (None, r2)
            end in
          match expo with
          | None => None
          | Some (ex, r4) =>
              match fr, ex with
              | None, None => Some (PInt (sign * ip), r4)
              | _, _ =>
                  let (fv, fn) := match fr with Some p => p | None => (0, O) end in
                  let e := match ex with Some e => e | None => 0 end in
                  let scale := Qpower (inject_Z 10) (Z.of_nat fn) in
                  let mant := Qdiv (inject_Z (ip * 10 ^ Z.of_nat fn + fv)) scale in
                  Some (PFloat (Qred (inject_Z sign * mant * Qpower (inject_Z 10) e)), r4)
              end
          end
      end
  end.

(** Recursive descent, on a fuel that bounds the nesting and the number of
    items: the length of the text is enough. *)
Fixpoint parse_value (fuel : nat) (s : string) : option (pyval * string) :=
  match fuel with
  | O => None
  | S fuel' =>
      let s := skip_ws s in
      match s with
      | EmptyString => None
      | String c rest =>
          if Ascii.eqb c dq then
            match string_tail rest with
            | Some (t, r) => Some (PStr t, r)
            | None => None
            end
          else match c with
          | "["%char =>
              match skip_ws rest with
              | String "]"%char r => Some (PList [], r)
              | _ => parse_elements fuel' rest []
              end
          | "{"%char =>
              match skip_ws rest with
              | String "}"%char r => Some (PDict [], r)
              | _ => parse_members fuel' rest []
              end
          | "n"%char =>
              match strip_prefix "ull" rest with
              | Some r => Some (PNone, r)
              | None => None
              end
          | "t"%char =>
              match strip_prefix "rue" rest with
              | Some r => Some (PBool true, r)
              | None => None
              end
          | "f"%char =>
              match strip_prefix "alse" rest with
              | Some r => Some (PBool false, r)
              | None => None
              end
          | _ => number s
          end
      end
  end

with parse_elements (fuel : nat) (s : string) (acc : list pyval)
    : option (pyval * string) :=
  match fuel with
  | O => None
  | S fuel' =>
      match parse_value fuel' s with
      | Some (v, r) =>
          match skip_ws r with
          | String ","%char r' => parse_elements fuel' r' (v :: acc)
          | String "]"%char r' => Some (PList (rev (v :: acc)), r')
          | _ => None
          end
      | None => None
      end
  end

with parse_members (fuel : nat) (s : string) (acc : dict)
    : option (pyval * string) :=
  match fuel with
  | O => None
  | S fuel' =>
      match skip_ws s with
      | String c rest =>
          if Ascii.eqb c dq then
            match string_tail rest with
            | Some (k, r) =>
                match skip_ws r with
                | String ":"%char r' =>
                    match parse_value fuel' r' with
                    | Some (v, r'') =>
                        let acc' := dict_put acc (PStr k) v in
                        match skip_ws r'' with
                        | String ","%char r3 => parse_members fuel' r3 acc'
                        | String "}"%char r3 => Some (PDict acc', r3)
                        | _ => None
                        end
                    | None => None
                    end
                | _ => None
                end
            | None => None
            end
          else None
      | EmptyString => None
      end
  end.

Definition decode (s : string) : result pyval :=
  match parse_value (S (String.length s)) s with
  | Some (v, r) =>
      match skip_ws r with
      | EmptyString => Ok v
      | _ => Raise (mk_exn JSONDecodeError "Extra data")
      end
  | None => Raise (mk_exn JSONDecodeError "Expecting value")
  end.

Definition decimal (n : Z) : string := NilZero.string_of_int (Z.to_int n).

Definition hex_digit (n : N) : ascii :=
  ascii_of_N (if (n <? 10)%N then 48 + n else 87 + n)%N.

(** The escape [\u00XX] of a character outside the printable ASCII range. *)
Definition u_escape (c : ascii) : string :=
  let n := N_of_ascii c in
  String backslash
    ("u00" ++ String (hex_digit (n / 16)) (String (hex_digit (n mod 16)) EmptyString)).

Definition escape_char (c : ascii) : string :=
  if Ascii.eqb c dq then String backslash (String dq EmptyString)
  else if Ascii.eqb c backslash then String backslash (String backslash EmptyString)
  else match c with
       | "010"%char => String backslash "n"
       | "013"%char => String backslash "r"
       | "009"%char => String backslash "t"
       | "008"%char => String backslash "b"
       | "012"%char => String backslash "f"
       | _ =>
           let n := nat_of_ascii c in
           if ((32 <=? n) && (n <=? 126))%nat then String c EmptyString
           else u_escape c
       end.

Fixpoint escape (s : string) : string :=
  match s with
  | EmptyString => EmptyString
  | String c rest => escape_char c ++ escape rest
  end.

Definition encode_string (s : string) : string :=
  String dq (escape s ++ String dq EmptyString).

(** The digits of [r / d] after the point, at most [fuel] of them. *)
Fixpoint fraction_digits (fuel : nat) (r d : Z) : string :=
  match fuel with
  | O => EmptyString
  | S fuel' =>
      if (r =? 0)%Z then EmptyString
      else decimal (r * 10 / d) ++ fraction_digits fuel' (r * 10 mod d) d
  end.

(** A float in positional notation (Python switches to the exponent notation
    from 1e16 on and below 1e-4, and prints the shortest digits that round
    back). *)
Definition float_repr (x : Q) : string :=
  let n := Qnum x in
  let d := Z.pos (Qden x) in
  let a := Z.abs n in
  (if (n <? 0)%Z then "-" else "") ++ decimal (a / d) ++ "." ++
  (if (a mod d =? 0)%Z then "0" else fraction_digits 30 (a mod d) d).

(** A dict key as [json.dumps] writes it. *)
Definition encode_key (k : pyval) : string :=
  match k with
  | PStr s => encode_string s
  | PNone => encode_string "null"
  | PBool b => encode_string (if b then "true" else "false")
  | PInt n => encode_string (decimal n)
  | PFloat x => encode_string (float_repr x)
  | _ => encode_string ""
  end.

(** [json.dumps(v)] with its default separators and [ensure_ascii]. *)
Fixpoint dumps (v : pyval) : string :=
  match v with
  | PNone => "null"
  | PBool b => if b then "true" else "false"
  | PInt n => decimal n
  | PFloat x => float_repr x
  | PStr s => encode_string s
  | PList items =>
      "[" ++
      (fix go (l : list pyval) : string :=
         match l with
         | [] => ""
         | x :: r =>
             dumps x ++ match r with [] => "" | _ :: _ => ", " ++ go r end
         end) items ++ "]"
  | PDict items =>
      "{" ++
      (fix go (l : list (pyval * pyval)) : string :=
         match l with
         | [] => ""
         | (k, x) :: r =>
             encode_key k ++ ": " ++ dumps x ++
             match r with [] => "" | _ :: _ => ", " ++ go r end
         end) items ++ "}"
  end.

(** [repr(v)], for strings without quotes or characters to escape. *)
Fixpoint repr (v : pyval) : string :=
  match v with
  | PNone => "None"
  | PBool b => if b then "True" else "False"
  | PInt n => decimal n
  | PFloat x => float_repr x
  | PStr s => quote s
  | PList items =>
      "[" ++
      (fix go (l : list pyval) : string :=
         match l with
         | [] => ""
         | x :: r =>
             repr x ++ match r with [] => "" | _ :: _ => ", " ++ go r end
         end) items ++ "]"
  | PDict items =>
      "{" ++
      (fix go (l : list (pyval * pyval)) : string :=
         match l with
         | [] => ""
         | (k, x) :: r =>
             repr k ++ ": " ++ repr x ++
             match r with [] => "" | _ :: _ => ", " ++ go r end
         end) items ++ "}"
  end.

(** A scripted billing API: the world is the list of the outcomes still to
    serve, one per call; once the script is over, the endpoint is down. *)
Definition scripted (kwargs : pyval) (script : list (result dict))
    : result dict * list (result dict) :=
  match script with
  | outcome :: rest => (outcome, rest)
  | [] =>
      (Raise (mk_exn EndpointConnectionError "Could not connect to the endpoint URL"), [])
  end.

#[export] Instance runtime : Runtime := {
  World := list (result dict);
  get_cost_and_usage := scripted;
  json_decode := decode;
  json_dumps := dumps;
  py_repr := repr
}.

(** A string between double quotes. *)
Definition q (s : string) : string := String dq (s ++ String dq EmptyString).

End Reference.

(** ** Scenarios

    Events, answers of the billing API and initial states on which the
    program is run with the reference runtime. *)
Module Scenario.

Import Reference.
Local Open Scope string_scope.

Definition entry (name : string) : string :=
  "{" ++ q "Service" ++ ":" ++ q name ++ "}".

Definition two_services : string :=
  "[" ++ entry "Amazon EC2" ++ "," ++ entry "Amazon S3" ++ "]".

Definition twice_the_same : string :=
  "[" ++ entry "Amazon EC2" ++ "," ++ entry "Amazon EC2" ++ "]".

Definition second_without_Service : string :=
  "[" ++ entry "Amazon EC2" ++ ",{" ++ q "Name" ++ ":" ++ q "Amazon S3" ++ "}]".

Definition start_date : pyval := PStr "2024-01-01".
Definition end_date : pyval := PStr "2024-01-08".
Definition account_id : pyval := PStr "123456789012".

Definition event_of (services : string) : pyval :=
  PDict
    [ (PStr "services", PStr services);
      (PStr "start_date", start_date);
      (PStr "end_date", end_date);
      (PStr "account_id", account_id) ].

Definition event_without_end_date (services : string) : dict :=
  [ (PStr "services", PStr services);
    (PStr "start_date", start_date);
    (PStr "account_id", account_id) ].

Definition service_entry (name : string) : pyval :=
  PDict [(PStr "Service", PStr name)].

(** One day of a [ResultsByTime] list. *)
Definition day (first next usage_type amount : string) : pyval :=
  PDict
    [ (PStr "TimePeriod", PDict [(PStr "Start", PStr first); (PStr "End", PStr next)]);
      (PStr "Groups",
        PList
          [ PDict
              [ (PStr "Keys", PList [PStr usage_type]);
                (PStr "Metrics",
                  PDict
                    [ (PStr "UnblendedCost",
                        PDict [(PStr "Amount", PStr amount); (PStr "Unit", PStr "USD")]) ]) ] ]);
      (PStr "Estimated", PBool false) ].

Definition ec2_results : pyval :=
  PList
    [ day "2024-01-01" "2024-01-02" "BoxUsage:t3.micro" "0.2496";
      day "2024-01-02" "2024-01-03" "BoxUsage:t3.micro" "0.2496" ].

Definition answer (results : pyval) : dict :=
  [ (PStr "GroupDefinitions",
      PList [PDict [(PStr "Type", PStr "DIMENSION"); (PStr "Key", PStr "USAGE_TYPE")]]);
    (PStr "ResultsByTime", results) ].

Definition throttled : exn :=
  mk_exn ClientError
    "An error occurred (ThrottlingException) when calling the GetCostAndUsage operation: Rate exceeded".

(** The state before an invocation, the billing API following [script]. *)
Definition fresh (script : list (result dict)) : state := mk_state script [] [].

Definition two_names : list pyval := [PStr "Amazon EC2"; PStr "Amazon S3"].

(** An answer of the API without the key [ResultsByTime]. *)
Definition answer_without_results : dict :=
  [ (PStr "GroupDefinitions",
      PList [PDict [(PStr "Type", PStr "DIMENSION"); (PStr "Key", PStr "USAGE_TYPE")]]) ].

(** The second entry names its service by a list. *)
Definition second_names_a_list : string :=
  "[" ++ entry "Amazon EC2" ++ ",{" ++ q "Service" ++ ":[" ++ q "Amazon S3" ++ "]}]".

(** One entry given as it is, not in an array. *)
Definition entry_not_in_array : string := entry "Amazon EC2".

(** The entries of [two_services] with the cost beside the name. *)
Definition two_services_with_cost : string :=
  "[{" ++ q "Service" ++ ":" ++ q "Amazon EC2" ++ "," ++ q "Cost" ++ ":12.5},{" ++
  q "Cost" ++ ":3," ++ q "Service" ++ ":" ++ q "Amazon S3" ++ "}]".

(** Amazon S3 between two entries for Amazon EC2. *)
Definition ec2_s3_ec2 : string :=
  "[" ++ entry "Amazon EC2" ++ "," ++ entry "Amazon S3" ++ "," ++ entry "Amazon EC2" ++ "]".

Definition query_for (name : string) : pyval :=
  cost_query (PStr name) account_id start_date end_date.

End Scenario.

(** * Properties *)

(** ** Dict keys *)

Lemma key_eqb_spec (a b : pyval) :
  key_eqb a b = true <->
  (a = PNone /\ b = PNone) \/
  (exists s, a = PStr s /\ b = PStr s) \/
  (exists x y, number_of a = Some x /\ number_of b = Some y /\ Qeq x y).
Proof.
  split.
  - destruct a, b; simpl; intros H; try discriminate; auto;
      try (right; right; eexists; eexists; repeat split;
           apply Qeq_bool_iff; exact H).
    apply String.eqb_eq in H. subst. right; left; eauto.
  - intros [[-> ->] | [[s [-> ->]] | [x [y [Ha [Hb Hxy]]]]]].
    + reflexivity.
    + simpl. apply String.eqb_refl.
    + apply Qeq_bool_iff in Hxy.
      destruct a, b; simpl in *; try discriminate;
        inversion Ha; inversion Hb; subst; assumption.
Qed.

Lemma key_eqb_refl (k : pyval) : hashable k = true -> key_eqb k k = true.
Proof.
  destruct k; simpl; try discriminate; intros _; auto;
    try (apply Qeq_bool_iff; reflexivity).
  apply String.eqb_refl.
Qed.

Lemma key_eq_sym (a b : pyval) : key_eqb a b = true -> key_eqb b a = true.
Proof.
  rewrite !key_eqb_spec.
  intros [[-> ->] | [[s [-> ->]] | [x [y [Ha [Hb Hxy]]]]]]; eauto.
  right; right. exists y, x. repeat split; auto. symmetry; assumption.
Qed.

Lemma key_eq_trans (a b c : pyval) :
  key_eqb a b = true -> key_eqb b c = true -> key_eqb a c = true.
Proof.
  intros Hab Hbc.
  destruct a, b; simpl in Hab; try discriminate;
    destruct c; simpl in Hbc |- *; try discriminate; auto;
    try (apply Qeq_bool_iff; apply Qeq_bool_iff in Hab; apply Qeq_bool_iff in Hbc;
         etransitivity; eassumption).
  apply String.eqb_eq in Hab. apply String.eqb_eq in Hbc. subst. apply String.eqb_refl.
Qed.

Lemma key_eqb_PStr (s : string) (k : pyval) :
  key_eqb (PStr s) k = true <-> k = PStr s.
Proof.
  destruct k; simpl; split; intros H; try discriminate; try congruence.
  - apply String.eqb_eq in H. congruence.
  - inversion H. apply String.eqb_refl.
Qed.

(** Two keys equal to a third are told apart from every key together. *)
Lemma key_eqb_congr (a b c : pyval) :
  key_eqb a b = true -> key_eqb a c = key_eqb b c.
Proof.
  intros Hab.
  destruct (key_eqb a c) eqn:Hac, (key_eqb b c) eqn:Hbc; auto.
  - apply key_eq_sym in Hab. rewrite (key_eq_trans _ _ _ Hab Hac) in Hbc. discriminate.
  - rewrite (key_eq_trans _ _ _ Hab Hbc) in Hac. discriminate.
Qed.

(** ** Dicts *)

Lemma dict_get_put (d : dict) (k v k' : pyval) :
  dict_get (dict_put d k v) k' = if key_eqb k k' then Some v else dict_get d k'.
Proof.
  induction d as [| [k0 v0] rest IH]; simpl.
  - reflexivity.
  - destruct (key_eqb k0 k) eqn:H0; simpl.
    + rewrite (key_eqb_congr _ _ k' H0). destruct (key_eqb k k'); reflexivity.
    + rewrite IH. destruct (key_eqb k0 k') eqn:H1; [| reflexivity].
      destruct (key_eqb k k') eqn:H2; [| reflexivity].
      apply key_eq_sym in H2. rewrite (key_eq_trans _ _ _ H1 H2) in H0. discriminate.
Qed.

Lemma dict_get_InA (d : dict) (k : pyval) :
  dict_get d k <> None <-> InA key_eq k (dict_keys d).
Proof.
  induction d as [| [k0 v0] rest IH]; simpl.
  - split; [congruence | intros H; inversion H].
  - destruct (key_eqb k0 k) eqn:H0.
    + split; [| congruence]. intros _. left. apply key_eq_sym, H0.
    + rewrite IH. split; intros H.
      * right. exact H.
      * inversion H; subst; [| assumption].
        apply key_eq_sym in H2. unfold key_eq in H2. congruence.
Qed.

Lemma dict_keys_put (d : dict) (k v : pyval) :
  dict_keys (dict_put d k v) =
  if existsb (fun k' => key_eqb k' k) (dict_keys d) then dict_keys d
  else dict_keys d ++ [k].
Proof.
  induction d as [| [k0 v0] rest IH]; simpl.
  - reflexivity.
  - destruct (key_eqb k0 k) eqn:H0; simpl.
    + reflexivity.
    + unfold dict_keys in *. rewrite IH.
      destruct (existsb _ (map fst rest)); reflexivity.
Qed.

Lemma existsb_key_InA (k : pyval) (l : list pyval) :
  existsb (fun k' => key_eqb k' k) l = true <-> InA key_eq k l.
Proof.
  induction l as [| a l IH]; simpl.
  - split; [discriminate | intros H; inversion H].
  - rewrite orb_true_iff, IH. split.
    + intros [H | H]; [left; apply key_eq_sym, H | right; exact H].
    + intros H; inversion H; subst; [left; apply key_eq_sym; assumption | right; assumption].
Qed.

Lemma InA_key_eq_app (k : pyval) (l1 l2 : list pyval) :
  InA key_eq k (l1 ++ l2) <-> InA key_eq k l1 \/ InA key_eq k l2.
Proof. apply InA_app_iff. Qed.

Lemma NoDupA_put (d : dict) (k v : pyval) :
  NoDupA key_eq (dict_keys d) -> NoDupA key_eq (dict_keys (dict_put d k v)).
Proof.
  intros Hnd. rewrite dict_keys_put.
  destruct (existsb _ (dict_keys d)) eqn:He; [assumption |].
  assert (Hn : ~ InA key_eq k (dict_keys d)).
  { rewrite <- existsb_key_InA, He. discriminate. }
  clear He. induction Hnd as [| a l Ha Hnd IH]; simpl.
  - constructor; [intros H; inversion H | constructor].
  - constructor.
    + rewrite InA_key_eq_app. intros [H | H]; [contradiction |].
      inversion H; subst; [| inversion H1].
      apply Hn. left. apply key_eq_sym. assumption.
    + apply IH. intros H. apply Hn. right. exact H.
Qed.

(** Among strings, keys are equal only when they are the same string. *)
Lemma key_eq_str (a b : pyval) : is_str b = true -> key_eqb a b = true -> a = b.
Proof.
  destruct b; try discriminate. intros _ H.
  apply key_eq_sym, key_eqb_PStr in H. exact H.
Qed.

Lemma InA_key_eq_str (k : pyval) (l : list pyval) :
  Forall (fun x => is_str x = true) l -> InA key_eq k l <-> In k l.
Proof.
  intros Hstr. rewrite InA_alt, Forall_forall in *. split.
  - intros (y & Hky & Hy). rewrite (key_eq_str k y (Hstr y Hy) Hky). exact Hy.
  - intros Hk. exists k. split; [| exact Hk].
    specialize (Hstr k Hk). destruct k; try discriminate.
    apply key_eqb_PStr. reflexivity.
Qed.

Lemma NoDupA_key_eq_str (l : list pyval) :
  Forall (fun x => is_str x = true) l -> NoDupA key_eq l -> NoDup l.
Proof.
  intros Hstr Hnd. induction Hnd as [| x l Hx _ IH].
  - constructor.
  - inversion Hstr; subst. constructor; [| apply IH; assumption].
    intros Hin. apply Hx. apply InA_key_eq_str; assumption.
Qed.

Lemma dict_keys_put_In (d : dict) (k0 v k : pyval) :
  In k (dict_keys (dict_put d k0 v)) -> In k (dict_keys d) \/ k = k0.
Proof.
  rewrite dict_keys_put.
  destruct (existsb _ (dict_keys d)); [auto |].
  rewrite in_app_iff. simpl. intuition auto.
Qed.

(** ** The program, step by step *)

Section Steps.

Context {R : Runtime}.

Implicit Types (st : state) (acc : dict).

(** A query never raises: it returns what the call leaves to store, records
    the call, and logs the exception it caught. *)
Lemma breakdown_service_cost_run (service account_id start_date end_date : pyval) st :
  breakdown_service_cost service account_id start_date end_date st =
  let query := cost_query service account_id start_date end_date in
  let (outcome, w) := get_cost_and_usage query (world st) in
  (Ok (result_of_call outcome),
   mk_state w (calls st ++ [(query, outcome)]) (log st ++ error_log service outcome)).
Proof.
  unfold breakdown_service_cost, try_except, bind, ce_client_get_cost_and_usage, lift.
  cbv zeta.
  destruct (get_cost_and_usage _ (world st)) as [[response | e] w]; simpl.
  - unfold error_log. simpl.
    destruct (dict_get response (PStr "ResultsByTime")); simpl.
    + rewrite app_nil_r. reflexivity.
    + reflexivity.
  - reflexivity.
Qed.

Lemma getitem_Service (entry name : pyval) :
  getitem entry "Service" = Ok name <-> service_of entry = Some name.
Proof.
  destruct entry; simpl; try (split; discriminate).
  destruct (dict_get items (PStr "Service")); split; congruence.
Qed.

Lemma api_run_queries (qs : list pyval) (w : World) :
  map fst (fst (api_run qs w)) = qs.
Proof.
  revert w. induction qs as [| query qs IH]; intros w; simpl.
  - reflexivity.
  - destruct (get_cost_and_usage query w) as [outcome w1].
    specialize (IH w1). destruct (api_run qs w1). simpl in *. congruence.
Qed.

(** The loop over entries that have a hashable [Service] value runs to its
    end: one call per entry, in order, each stored under its name. *)
Lemma for_services_run (entries names : list pyval)
    (account_id start_date end_date : pyval) acc st :
  Forall2 (fun entry name => service_of entry = Some name) entries names ->
  Forall (fun name => hashable name = true) names ->
  for_services entries account_id start_date end_date acc st =
  let (events, w) :=
    api_run (map (fun name => cost_query name account_id start_date end_date) names)
      (world st) in
  (Ok (report_of names events acc),
   mk_state w (calls st ++ events) (log st ++ error_logs names events)).
Proof.
  intros Hnames. revert acc st.
  induction Hnames as [| entry name entries names Hentry _ IH]; intros acc st Hhash.
  - simpl. rewrite !app_nil_r. destruct st; reflexivity.
  - inversion Hhash as [| ? ? Hname Hrest]; subst.
    apply getitem_Service in Hentry.
    simpl. unfold bind at 1, lift at 1. rewrite Hentry.
    unfold bind at 1. rewrite breakdown_service_cost_run. cbv zeta.
    destruct (get_cost_and_usage _ (world st)) as [outcome w1].
    unfold bind at 1, lift at 1, setitem. rewrite Hname.
    rewrite IH by assumption. simpl.
    destruct (api_run _ w1) as [events w2].
    unfold report_of, error_logs. simpl.
    rewrite <- !app_assoc. reflexivity.
Qed.

(** When the loop ends normally, every name it stored under was hashable. *)
Lemma for_services_hashable (entries names : list pyval)
    (account_id start_date end_date : pyval) acc st report st' :
  Forall2 (fun entry name => service_of entry = Some name) entries names ->
  for_services entries account_id start_date end_date acc st = (Ok report, st') ->
  Forall (fun name => hashable name = true) names.
Proof.
  intros Hnames. revert acc st.
  induction Hnames as [| entry name entries names Hentry _ IH]; intros acc st Hrun.
  - constructor.
  - apply getitem_Service in Hentry.
    simpl in Hrun. unfold bind at 1, lift at 1 in Hrun. rewrite Hentry in Hrun.
    unfold bind at 1 in Hrun. rewrite breakdown_service_cost_run in Hrun. cbv zeta in Hrun.
    destruct (get_cost_and_usage _ (world st)) as [outcome w1].
    unfold bind at 1, lift at 1, setitem in Hrun.
    destruct (hashable name) eqn:Hname; [| discriminate].
    constructor; [assumption |]. eapply IH. exact Hrun.
Qed.

(** An entry without a [Service] key stops the loop with an exception. *)
Lemma for_services_raises (entries : list pyval)
    (account_id start_date end_date : pyval) acc st :
  Exists (fun entry => service_of entry = None) entries ->
  exists e st', for_services entries account_id start_date end_date acc st = (Raise e, st').
Proof.
  revert acc st. induction entries as [| entry entries IH]; intros acc st Hex.
  - inversion Hex.
  - simpl. unfold bind at 1, lift at 1.
    destruct (getitem entry "Service") as [name | e] eqn:Hentry; [| eauto].
    unfold bind at 1. rewrite breakdown_service_cost_run. cbv zeta.
    destruct (get_cost_and_usage _ (world st)) as [outcome w1].
    unfold bind at 1, lift at 1, setitem.
    destruct (hashable name); [| eauto].
    apply IH. inversion Hex; subst; [| assumption].
    apply getitem_Service in Hentry. congruence.
Qed.

(** The handler, once the event has given its four fields. *)
Lemma lambda_handler_run (event context sv services sd ed acct : pyval)
    (items : list pyval) st :
  getitem event "services" = Ok sv ->
  json_loads sv = Ok services ->
  getitem event "start_date" = Ok sd ->
  getitem event "end_date" = Ok ed ->
  getitem event "account_id" = Ok acct ->
  iterate services = Ok items ->
  lambda_handler event context st =
  match for_services items acct sd ed [] st with
  | (Ok report, st1) =>
      (Ok (response_200 (json_dumps (PDict report))),
       mk_state (world st1) (calls st1) (log st1 ++ [LogInfo (PDict report)]))
  | (Raise e, st1) => (Raise e, st1)
  end.
Proof.
  intros Hsv Hload Hsd Hed Hacct Hiter.
  unfold lambda_handler, bind, lift.
  rewrite Hsv, Hload, Hsd, Hed, Hacct, Hiter.
  destruct (for_services items acct sd ed [] st) as [[report | e] st1]; reflexivity.
Qed.

(** A response comes only out of a complete pass. *)
Lemma lambda_handler_inv (event context response : pyval) st st' :
  lambda_handler event context st = (Ok response, st') ->
  exists sv services sd ed acct items report st1,
    getitem event "services" = Ok sv /\
    json_loads sv = Ok services /\
    getitem event "start_date" = Ok sd /\
    getitem event "end_date" = Ok ed /\
    getitem event "account_id" = Ok acct /\
    iterate services = Ok items /\
    for_services items acct sd ed [] st = (Ok report, st1) /\
    response = response_200 (json_dumps (PDict report)) /\
    st' = mk_state (world st1) (calls st1) (log st1 ++ [LogInfo (PDict report)]).
Proof.
  unfold lambda_handler, bind, lift. intros H.
  destruct (getitem event "services") as [sv | ?] eqn:Hsv; [| discriminate].
  destruct (json_loads sv) as [services | ?] eqn:Hload; [| discriminate].
  destruct (getitem event "start_date") as [sd | ?] eqn:Hsd; [| discriminate].
  destruct (getitem event "end_date") as [ed | ?] eqn:Hed; [| discriminate].
  destruct (getitem event "account_id") as [acct | ?] eqn:Hacct; [| discriminate].
  destruct (iterate services) as [items | ?] eqn:Hiter; [| discriminate].
  destruct (for_services items acct sd ed [] st) as [[report | ?] st1] eqn:Hloop;
    [| discriminate].
  unfold logging_info, ret in H. simpl in H. injection H as <- <-.
  exists sv, services, sd, ed, acct, items, report, st1.
  repeat split; assumption.
Qed.

(** ** Reports *)

Lemma report_of_get (names : list pyval) (events : list api_event) acc (k : pyval) :
  dict_get (report_of names events acc) k =
  match latest_call names events k with
  | Some ev => Some (result_of_call (snd ev))
  | None => dict_get acc k
  end.
Proof.
  revert events acc. induction names as [| name names IH]; intros events acc.
  - reflexivity.
  - destruct events as [| ev events]; [reflexivity |].
    unfold report_of in *. simpl. rewrite IH.
    destruct (latest_call names events k); [reflexivity |].
    rewrite dict_get_put. simpl. destruct (key_eqb name k); reflexivity.
Qed.

Lemma latest_call_none (names : list pyval) (events : list api_event) (k : pyval) :
  (forall j name, nth_error names j = Some name -> key_eqb name k = false) ->
  latest_call names events k = None.
Proof.
  revert events. induction names as [| name names IH]; intros events H.
  - reflexivity.
  - destruct events as [| ev events]; [reflexivity |]. simpl.
    rewrite IH by (intros j n Hj; apply (H (S j) n Hj)).
    rewrite (H O name eq_refl). reflexivity.
Qed.

(** The latest call for a name is the call of its last occurrence. *)
Lemma latest_call_last (names : list pyval) (events : list api_event)
    (i : nat) (name : pyval) (ev : api_event) :
  nth_error names i = Some name ->
  nth_error events i = Some ev ->
  hashable name = true ->
  (forall j name', (i < j)%nat -> nth_error names j = Some name' ->
                   key_eqb name' name = false) ->
  latest_call names events name = Some ev.
Proof.
  revert events i. induction names as [| n names IH]; intros events i Hn He Hh Hlast.
  - destruct i; discriminate.
  - destruct events as [| e events]; [destruct i; discriminate |].
    destruct i as [| i]; simpl in *.
    + inversion Hn; inversion He; subst.
      rewrite latest_call_none.
      * rewrite key_eqb_refl by assumption. reflexivity.
      * intros j n' Hj. apply (Hlast (S j)); [lia | exact Hj].
    + rewrite (IH events i Hn He Hh); [reflexivity |].
      intros j n' Hij Hj. apply (Hlast (S j)); [lia | exact Hj].
Qed.

Lemma latest_call_InA (names : list pyval) (events : list api_event) (k : pyval) :
  length events = length names ->
  latest_call names events k <> None <-> InA key_eq k names.
Proof.
  revert events. induction names as [| name names IH]; intros events Hlen.
  - simpl. split; [congruence | intros H; inversion H].
  - destruct events as [| ev events]; [discriminate |]. simpl in *.
    specialize (IH events ltac:(lia)).
    destruct (latest_call names events k).
    + split; [| congruence]. intros _. right. apply IH. congruence.
    + destruct (key_eqb name k) eqn:Hk.
      * split; [| congruence]. intros _. left. apply key_eq_sym, Hk.
      * split; [congruence |]. intros H. inversion H; subst.
        -- apply key_eq_sym in H1. unfold key_eq in H1. congruence.
        -- apply IH in H1. congruence.
Qed.

Lemma report_of_NoDupA (names : list pyval) (events : list api_event) acc :
  NoDupA key_eq (dict_keys acc) ->
  NoDupA key_eq (dict_keys (report_of names events acc)).
Proof.
  revert events acc. induction names as [| name names IH]; intros events acc Hacc.
  - exact Hacc.
  - destruct events as [| ev events]; [exact Hacc |].
    unfold report_of in *. simpl. apply IH, NoDupA_put, Hacc.
Qed.

Lemma report_of_keys_In (names : list pyval) (events : list api_event) acc (k : pyval) :
  In k (dict_keys (report_of names events acc)) -> In k (dict_keys acc) \/ In k names.
Proof.
  revert events acc. induction names as [| name names IH]; intros events acc Hk.
  - left. exact Hk.
  - destruct events as [| ev events]; [left; exact Hk |].
    unfold report_of in *. simpl in Hk. apply IH in Hk.
    destruct Hk as [Hk | Hk]; [| right; right; exact Hk].
    apply dict_keys_put_In in Hk. destruct Hk as [Hk | ->]; [left | right; left]; auto.
Qed.

End Steps.

(** ** One query: [breakdown_service_cost] *)

Section Query.

Context {R : Runtime}.

Variables service account_id start_date end_date : pyval.

Let query : pyval := cost_query service account_id start_date end_date.

Lemma contains_middle (a t b : string) : contains (a ++ t ++ b) t.
Proof. exists a, b. reflexivity. Qed.

Lemma contains_end (a t : string) : contains (a ++ t) t.
Proof.
  exists a, EmptyString. f_equal.
  induction t as [| c t IH]; simpl; [reflexivity | f_equal; exact IH].
Qed.

Lemma error_message_contains (e : exn) :
  contains (error_message service e) (py_str service) /\
  contains (error_message service e) (exn_str e).
Proof.
  unfold error_message. split.
  - apply contains_middle.
  - replace ("Error fetching cost breakdown for " ++ py_str service ++ ": " ++ exn_str e)%string
      with (("Error fetching cost breakdown for " ++ py_str service ++ ": ") ++ exn_str e)%string.
    + apply contains_end.
    + simpl. f_equal. repeat (f_equal; []).
      generalize (py_str service) as s. intros s.
      induction s as [| c s IH]; simpl; [reflexivity | f_equal; exact IH].
Qed.

(** C2: whatever exception the call of the billing API raises, the query
    catches it: it returns [None] to its caller instead of raising, having
    logged one error whose message contains the service name and [str(e)]. *)
Theorem breakdown_service_cost_catches (st : state) (e : exn) (w : World) :
  get_cost_and_usage query (world st) = (Raise e, w) ->
  breakdown_service_cost service account_id start_date end_date st =
    (Ok PNone,
     mk_state w (calls st ++ [(query, Raise e)])
       (log st ++ [LogError (error_message service e)])) /\
  contains (error_message service e) (py_str service) /\
  contains (error_message service e) (exn_str e) /\
  (forall name, service = PStr name -> contains (error_message service e) name).
Proof.
  intros Hcall. rewrite breakdown_service_cost_run. cbv zeta.
  fold query. rewrite Hcall.
  destruct (error_message_contains e) as [Hname Hdetail].
  repeat split; try assumption.
  intros name ->. exact Hname.
Qed.

(** C6: a query calls the billing API once, with the period from
    [start_date] to [end_date], daily granularity, the unblended cost as
    only metric, a grouping by the usage-type dimension, and the conjunction
    of the service and linked-account dimensions as filter. *)
Theorem breakdown_service_cost_query (st : state) :
  let after := snd (breakdown_service_cost service account_id start_date end_date st) in
  let dimension key value :=
    PDict [(PStr "Dimensions", PDict [(PStr "Key", PStr key); (PStr "Values", PList [value])])] in
  calls after = calls st ++ [(query, fst (get_cost_and_usage query (world st)))] /\
  world after = snd (get_cost_and_usage query (world st)) /\
  iterate query =
    Ok [PStr "TimePeriod"; PStr "Granularity"; PStr "Metrics"; PStr "GroupBy"; PStr "Filter"] /\
  getitem query "TimePeriod" =
    Ok (PDict [(PStr "Start", start_date); (PStr "End", end_date)]) /\
  getitem query "Granularity" = Ok (PStr "DAILY") /\
  getitem query "Metrics" = Ok (PList [PStr "UnblendedCost"]) /\
  getitem query "GroupBy" =
    Ok (PList [PDict [(PStr "Type", PStr "DIMENSION"); (PStr "Key", PStr "USAGE_TYPE")]]) /\
  getitem query "Filter" =
    Ok (PDict [(PStr "And",
                PList [dimension "SERVICE" service; dimension "LINKED_ACCOUNT" account_id])]).
Proof.
  cbv zeta. rewrite breakdown_service_cost_run. cbv zeta. fold query.
  destruct (get_cost_and_usage query (world st)) as [outcome w]. simpl.
  repeat split; reflexivity.
Qed.

(** C7: the caller of a query sees a failure as [None] and nothing else of
    it, whatever was raised; an empty [ResultsByTime] comes back as the empty
    list, which is not [None].  The query always returns, and what it returns
    is [None] or the [ResultsByTime] of the response. *)
Theorem failure_is_None_empty_is_list (st : state) :
  (forall e w,
     get_cost_and_usage query (world st) = (Raise e, w) ->
     fst (breakdown_service_cost service account_id start_date end_date st) = Ok PNone) /\
  (forall response w,
     get_cost_and_usage query (world st) = (Ok response, w) ->
     getitem (PDict response) "ResultsByTime" = Ok (PList []) ->
     fst (breakdown_service_cost service account_id start_date end_date st) = Ok (PList [])) /\
  PList [] <> PNone /\
  (exists value,
     fst (breakdown_service_cost service account_id start_date end_date st) = Ok value) /\
  (forall value,
     fst (breakdown_service_cost service account_id start_date end_date st) = Ok value ->
     value = PNone \/
     exists response w,
       get_cost_and_usage query (world st) = (Ok response, w) /\
       getitem (PDict response) "ResultsByTime" = Ok value).
Proof.
  rewrite breakdown_service_cost_run. cbv zeta. fold query.
  repeat split.
  - intros e w ->. reflexivity.
  - intros response w -> Hempty. simpl in *.
    unfold result_of_call. rewrite Hempty. reflexivity.
  - discriminate.
  - destruct (get_cost_and_usage query (world st)) as [outcome w]. eexists. reflexivity.
  - destruct (get_cost_and_usage query (world st)) as [[response | e] w]; cbn [fst].
    + intros value Hvalue. injection Hvalue as <-. unfold result_of_call, getitem.
      destruct (dict_get response (PStr "ResultsByTime")) as [results |] eqn:Hresults.
      * right. exists response, w. split; [reflexivity |].
        unfold getitem. rewrite Hresults. reflexivity.
      * left. reflexivity.
    + intros value Hvalue. injection Hvalue as <-. left. reflexivity.
Qed.

End Query.

(** ** The whole invocation: [lambda_handler] *)

Section Handler.

Context {R : Runtime}.

Implicit Types (event context : pyval) (st : state).

Lemma for_services_cons (entry : pyval) (rest : list pyval)
    (acct sd ed : pyval) (acc : dict) st :
  for_services (entry :: rest) acct sd ed acc st =
  match getitem entry "Service" with
  | Raise e => (Raise e, st)
  | Ok name =>
      match breakdown_service_cost name acct sd ed st with
      | (Raise e, st1) => (Raise e, st1)
      | (Ok breakdown, st1) =>
          match setitem acc name breakdown with
          | Raise e => (Raise e, st1)
          | Ok acc' => for_services rest acct sd ed acc' st1
          end
      end
  end.
Proof.
  simpl. unfold bind, lift.
  destruct (getitem entry "Service") as [name | e]; [| reflexivity].
  destruct (breakdown_service_cost name acct sd ed st) as [[breakdown | e] st1];
    [| reflexivity].
  destruct (setitem acc name breakdown) as [acc' | e]; reflexivity.
Qed.

Lemma for_services_app (l1 l2 : list pyval) (acct sd ed : pyval) (acc : dict) st :
  for_services (l1 ++ l2) acct sd ed acc st =
  match for_services l1 acct sd ed acc st with
  | (Ok acc', st') => for_services l2 acct sd ed acc' st'
  | (Raise e, st') => (Raise e, st')
  end.
Proof.
  revert acc st. induction l1 as [| entry l1 IH]; intros acc st.
  - reflexivity.
  - rewrite <- app_comm_cons, !for_services_cons.
    destruct (getitem entry "Service") as [name | e]; [| reflexivity].
    destruct (breakdown_service_cost name acct sd ed st) as [[breakdown | e] st1];
      [| reflexivity].
    destruct (setitem acc name breakdown) as [acc' | e]; [| reflexivity].
    apply IH.
Qed.

Lemma api_run_length (queries : list pyval) (w : World) :
  length (fst (api_run queries w)) = length queries.
Proof.
  rewrite <- (api_run_queries queries w) at 2. rewrite length_map. reflexivity.
Qed.

(** What a response tells about the pass that gave it. *)
Lemma lambda_handler_report
    event context st (sv : pyval) (entries names : list pyval) (response : pyval) st' :
  getitem event "services" = Ok sv ->
  json_loads sv = Ok (PList entries) ->
  Forall2 (fun entry name => service_of entry = Some name) entries names ->
  lambda_handler event context st = (Ok response, st') ->
  exists events,
    length events = length names /\
    Forall (fun name => hashable name = true) names /\
    response = response_200 (json_dumps (PDict (report_of names events []))) /\
    calls st' = calls st ++ events.
Proof.
  intros Hsv Hload Hnames Hrun.
  apply lambda_handler_inv in Hrun.
  destruct Hrun as (sv' & services & sd & ed & acct & items & report & st1 &
                    Hsv' & Hload' & _ & _ & _ & Hiter & Hloop & -> & ->).
  rewrite Hsv in Hsv'. injection Hsv' as <-.
  rewrite Hload in Hload'. injection Hload' as <-.
  simpl in Hiter. injection Hiter as <-.
  pose proof (for_services_hashable _ _ _ _ _ _ _ _ _ Hnames Hloop) as Hhash.
  rewrite (for_services_run _ _ _ _ _ _ _ Hnames Hhash) in Hloop.
  pose proof (api_run_length
                (map (fun name => cost_query name acct sd ed) names) (world st)) as Hlen.
  destruct (api_run _ (world st)) as [events w]. simpl in Hlen.
  rewrite length_map in Hlen.
  injection Hloop as <- <-.
  exists events. repeat split; assumption || reflexivity.
Qed.

(** C1: when the [services] field decodes to an array of objects that each
    have a [Service] key, the report of every response holds exactly those
    [Service] values as keys, each once, whatever the outcome of the calls (a
    failed call leaves [None]); a name that occurs several times holds the
    result of its latest call.  Keys are compared as a dict compares them,
    which for strings is equality.  A response is returned as soon as the
    names can be keys and the event has its three other fields. *)
Theorem report_keys_are_service_names
    event context st (sv : pyval) (entries names : list pyval) :
  getitem event "services" = Ok sv ->
  json_loads sv = Ok (PList entries) ->
  Forall2 (fun entry name => service_of entry = Some name) entries names ->
  (forall response st',
     lambda_handler event context st = (Ok response, st') ->
     exists (report : dict) (events : list api_event),
       response =
         PDict [(PStr "statusCode", PInt 200);
                (PStr "body", PStr (json_dumps (PDict report)))] /\
       calls st' = calls st ++ events /\
       length events = length names /\
       NoDupA key_eq (dict_keys report) /\
       (forall k, InA key_eq k (dict_keys report) <-> InA key_eq k names) /\
       (Forall (fun name => is_str name = true) names ->
        NoDup (dict_keys report) /\
        (forall k, In k (dict_keys report) <-> In k names)) /\
       (forall i name ev,
          nth_error names i = Some name ->
          nth_error events i = Some ev ->
          (forall j name', (i < j)%nat -> nth_error names j = Some name' ->
                           key_eqb name' name = false) ->
          dict_get report name = Some (result_of_call (snd ev)))) /\
  (forall e, result_of_call (Raise e) = PNone) /\
  (Forall (fun name => hashable name = true) names ->
   Forall (fun key => exists v, getitem event key = Ok v) other_keys ->
   exists response st', lambda_handler event context st = (Ok response, st')).
Proof.
  intros Hsv Hload Hnames. split; [| split; [reflexivity |]].
  - intros response st' Hrun.
    destruct (lambda_handler_report _ _ _ _ _ _ _ _ Hsv Hload Hnames Hrun)
      as (events & Hlen & Hhash & -> & Hcalls).
    exists (report_of names events []), events.
    assert (Hnd : NoDupA key_eq (dict_keys (report_of names events []))).
    { apply report_of_NoDupA. constructor. }
    assert (Hkeys : forall k, InA key_eq k (dict_keys (report_of names events []))
                              <-> InA key_eq k names).
    { intros k. rewrite <- dict_get_InA, report_of_get.
      rewrite <- (latest_call_InA names events k Hlen).
      destruct (latest_call names events k); simpl; split; congruence. }
    split; [reflexivity |]. split; [exact Hcalls |]. split; [exact Hlen |].
    split; [exact Hnd |]. split; [exact Hkeys |]. split.
    + intros Hstr.
      assert (Hstr' : Forall (fun x => is_str x = true)
                        (dict_keys (report_of names events []))).
      { rewrite Forall_forall in *. intros k Hk.
        apply report_of_keys_In in Hk. destruct Hk as [[] | Hk]. auto. }
      split; [apply NoDupA_key_eq_str; assumption |].
      intros k. rewrite <- (InA_key_eq_str k _ Hstr'), <- (InA_key_eq_str k _ Hstr).
      apply Hkeys.
    + intros i name ev Hi Hev Hlast. rewrite report_of_get.
      rewrite (latest_call_last names events i name ev Hi Hev); [reflexivity | | exact Hlast].
      rewrite Forall_forall in Hhash. apply Hhash. eapply nth_error_In. exact Hi.
  - intros Hhash Hkeys.
    unfold other_keys in Hkeys.
    inversion Hkeys as [| ? ? [sd Hsd] Hkeys1]; subst.
    inversion Hkeys1 as [| ? ? [ed Hed] Hkeys2]; subst.
    inversion Hkeys2 as [| ? ? [acct Hacct] _]; subst.
    rewrite (lambda_handler_run event context sv (PList entries) sd ed acct entries st)
      by (assumption || reflexivity).
    rewrite (for_services_run _ _ _ _ _ _ _ Hnames Hhash).
    destruct (api_run _ (world st)) as [events w]. eauto.
Qed.

(** The report built from the calls holds, under a name, what the call of
    its last occurrence answered. *)
Lemma report_of_holds_results (names : list pyval) (events : list api_event)
    (i : nat) (name query : pyval) (response : dict) (results : pyval) :
  Forall (fun name => hashable name = true) names ->
  nth_error names i = Some name ->
  nth_error events i = Some (query, Ok response) ->
  getitem (PDict response) "ResultsByTime" = Ok results ->
  (forall j name', (i < j)%nat -> nth_error names j = Some name' ->
                   key_eqb name' name = false) ->
  dict_get (report_of names events []) name = Some results.
Proof.
  intros Hhash Hi Hev Hresults Hlast.
  rewrite report_of_get.
  rewrite (latest_call_last names events i name _ Hi Hev); [| | exact Hlast].
  - cbn [snd]. unfold result_of_call. rewrite Hresults. reflexivity.
  - rewrite Forall_forall in Hhash. apply Hhash. eapply nth_error_In. exact Hi.
Qed.

(** C4: when the call of the billing API succeeds, the query returns the
    [ResultsByTime] of the response as it is and logs nothing.  An
    invocation calls the API once per entry, in order, and the report of its
    response, the one it logs last, holds under a service name the
    [ResultsByTime] that the latest call for that name answered, as it is;
    such a response is returned whenever the names can be keys. *)
Theorem results_stored_unmodified :
  (forall (service account_id start_date end_date : pyval) st
          (response : dict) (results : pyval) (w : World),
     let query := cost_query service account_id start_date end_date in
     get_cost_and_usage query (world st) = (Ok response, w) ->
     getitem (PDict response) "ResultsByTime" = Ok results ->
     breakdown_service_cost service account_id start_date end_date st =
       (Ok results, mk_state w (calls st ++ [(query, Ok response)]) (log st))) /\
  (forall event context st (sv sd ed acct : pyval) (entries names : list pyval),
     getitem event "services" = Ok sv ->
     json_loads sv = Ok (PList entries) ->
     Forall2 (fun entry name => service_of entry = Some name) entries names ->
     getitem event "start_date" = Ok sd ->
     getitem event "end_date" = Ok ed ->
     getitem event "account_id" = Ok acct ->
     let queries := map (fun name => cost_query name acct sd ed) names in
     let events := fst (api_run queries (world st)) in
     let stored (report : dict) :=
       forall i name query (response : dict) (results : pyval),
         nth_error names i = Some name ->
         nth_error events i = Some (query, Ok response) ->
         getitem (PDict response) "ResultsByTime" = Ok results ->
         (forall j name', (i < j)%nat -> nth_error names j = Some name' ->
                          key_eqb name' name = false) ->
         dict_get report name = Some results in
     length events = length names /\
     map fst events = queries /\
     (forall handler_response st',
        lambda_handler event context st = (Ok handler_response, st') ->
        exists (report : dict) (lg : list log_record),
          handler_response =
            PDict [(PStr "statusCode", PInt 200);
                   (PStr "body", PStr (json_dumps (PDict report)))] /\
          calls st' = calls st ++ events /\
          log st' = lg ++ [LogInfo (PDict report)] /\
          stored report) /\
     (Forall (fun name => hashable name = true) names ->
      exists (report : dict) (lg : list log_record),
        lambda_handler event context st =
          (Ok (PDict [(PStr "statusCode", PInt 200);
                      (PStr "body", PStr (json_dumps (PDict report)))]),
           mk_state (snd (api_run queries (world st))) (calls st ++ events)
             (lg ++ [LogInfo (PDict report)])) /\
        stored report)).
Proof.
  split.
  - intros service account_id start_date end_date st response results w query
           Hcall Hresults.
    rewrite breakdown_service_cost_run. cbv zeta. fold query. rewrite Hcall.
    unfold result_of_call, error_log, caught. rewrite Hresults.
    rewrite app_nil_r. reflexivity.
  - intros event context st sv sd ed acct entries names
           Hsv Hload Hnames Hsd Hed Hacct queries events stored.
    pose proof (lambda_handler_run event context sv (PList entries) sd ed acct entries st
                  Hsv Hload Hsd Hed Hacct eq_refl) as Hrun.
    assert (Hall : Forall (fun name => hashable name = true) names ->
                   lambda_handler event context st =
                     (Ok (response_200 (json_dumps (PDict (report_of names events [])))),
                      mk_state (snd (api_run queries (world st))) (calls st ++ events)
                        ((log st ++ error_logs names events) ++
                         [LogInfo (PDict (report_of names events []))])) /\
                   stored (report_of names events [])).
    { intros Hhash. split.
      - rewrite Hrun, (for_services_run _ _ _ _ _ _ _ Hnames Hhash).
        unfold events, queries.
        destruct (api_run _ (world st)) as [evs w]. reflexivity.
      - intros i name query response results Hi Hev Hresults Hlast.
        eapply report_of_holds_results; eassumption. }
    split; [unfold events; rewrite api_run_length; apply length_map |].
    split; [apply api_run_queries |].
    split.
    + intros handler_response st' Hok.
      assert (Hhash : Forall (fun name => hashable name = true) names).
      { rewrite Hok in Hrun.
        destruct (for_services entries acct sd ed [] st) as [[report | ?] st1] eqn:Hloop;
          [| discriminate].
        eapply for_services_hashable; eassumption. }
      destruct (Hall Hhash) as [Hval Hstored].
      rewrite Hval in Hok. injection Hok as <- <-.
      exists (report_of names events []), (log st ++ error_logs names events).
      repeat split; try reflexivity. exact Hstored.
    + intros Hhash. destruct (Hall Hhash) as [Hval Hstored].
      exists (report_of names events []), (log st ++ error_logs names events).
      split; [exact Hval | exact Hstored].
Qed.

(** An exception raised before the loop leaves the state as it was. *)
Lemma lambda_handler_prelude (event context : pyval) st :
  match getitem event "services" with
  | Raise e => lambda_handler event context st = (Raise e, st)
  | Ok sv =>
      match json_loads sv with
      | Raise e => lambda_handler event context st = (Raise e, st)
      | Ok services =>
          match getitem event "start_date" with
          | Raise e => lambda_handler event context st = (Raise e, st)
          | Ok sd =>
              match getitem event "end_date" with
              | Raise e => lambda_handler event context st = (Raise e, st)
              | Ok ed =>
                  match getitem event "account_id" with
                  | Raise e => lambda_handler event context st = (Raise e, st)
                  | Ok acct =>
                      match iterate services with
                      | Raise e => lambda_handler event context st = (Raise e, st)
                      | Ok items =>
                          lambda_handler event context st =
                          match for_services items acct sd ed [] st with
                          | (Ok report, st1) =>
                              (Ok (response_200 (json_dumps (PDict report))),
                               mk_state (world st1) (calls st1)
                                 (log st1 ++ [LogInfo (PDict report)]))
                          | (Raise e, st1) => (Raise e, st1)
                          end
                      end
                  end
              end
          end
      end
  end.
Proof.
  unfold lambda_handler, bind, lift.
  destruct (getitem event "services") as [sv | ?]; [| reflexivity].
  destruct (json_loads sv) as [services | ?]; [| reflexivity].
  destruct (getitem event "start_date") as [sd | ?]; [| reflexivity].
  destruct (getitem event "end_date") as [ed | ?]; [| reflexivity].
  destruct (getitem event "account_id") as [acct | ?]; [| reflexivity].
  destruct (iterate services) as [items | ?]; [| reflexivity].
  destruct (for_services items acct sd ed [] st) as [[report | ?] st1]; reflexivity.
Qed.

(** C3: a [services] field that does not decode makes the handler raise the
    decoding error, before any call; an entry of the decoded value without a
    [Service] key makes it raise as well, and no response is returned.  For
    an object without that key, reached after entries in order, the error is
    the [KeyError] of the key, raised after the calls made for those entries. *)
Theorem lambda_handler_malformed_services event context st (sv : pyval) :
  getitem event "services" = Ok sv ->
  (forall e, json_loads sv = Raise e ->
     lambda_handler event context st = (Raise e, st)) /\
  (forall services entries,
     json_loads sv = Ok services ->
     iterate services = Ok entries ->
     Exists (fun entry => service_of entry = None) entries ->
     exists e st', lambda_handler event context st = (Raise e, st')) /\
  (forall good names bad rest sd ed acct,
     json_loads sv = Ok (PList (good ++ PDict bad :: rest)) ->
     Forall2 (fun entry name => service_of entry = Some name) good names ->
     Forall (fun name => hashable name = true) names ->
     dict_get bad (PStr "Service") = None ->
     getitem event "start_date" = Ok sd ->
     getitem event "end_date" = Ok ed ->
     getitem event "account_id" = Ok acct ->
     exists st',
       lambda_handler event context st = (Raise (mk_exn KeyError "'Service'"), st') /\
       calls st' =
         calls st ++
         fst (api_run (map (fun name => cost_query name acct sd ed) names) (world st))).
Proof.
  intros Hsv. pose proof (lambda_handler_prelude event context st) as Hrun.
  rewrite Hsv in Hrun. repeat split.
  - intros e He. rewrite He in Hrun. exact Hrun.
  - intros services entries Hload Hiter Hex. rewrite Hload in Hrun.
    destruct (getitem event "start_date") as [sd | ?]; [| eauto].
    destruct (getitem event "end_date") as [ed | ?]; [| eauto].
    destruct (getitem event "account_id") as [acct | ?]; [| eauto].
    rewrite Hiter in Hrun. rewrite Hrun.
    destruct (for_services_raises entries acct sd ed [] st Hex) as (e & st' & ->).
    eauto.
  - intros good names bad rest sd ed acct Hload Hgood Hhash Hbad Hsd Hed Hacct.
    rewrite Hload, Hsd, Hed, Hacct in Hrun. simpl in Hrun. rewrite Hrun.
    rewrite for_services_app, (for_services_run _ _ _ _ _ _ _ Hgood Hhash).
    destruct (api_run _ (world st)) as [events w].
    rewrite for_services_cons. simpl. rewrite Hbad.
    eexists. split; reflexivity.
Qed.

(** C5: a response of the handler is the dict with the status code 200 and,
    as body, the JSON text of the report that the loop built from the empty
    dict and that was logged last; so no other status code is ever returned. *)
Theorem lambda_handler_returns_200 event context (response : pyval) st st' :
  lambda_handler event context st = (Ok response, st') ->
  getitem response "statusCode" = Ok (PInt 200) /\
  exists (report : dict),
    response =
      PDict [(PStr "statusCode", PInt 200);
             (PStr "body", PStr (json_dumps (PDict report)))] /\
    (exists items acct sd ed st1,
       for_services items acct sd ed [] st = (Ok report, st1) /\
       log st' = log st1 ++ [LogInfo (PDict report)]).
Proof.
  intros Hrun. apply lambda_handler_inv in Hrun.
  destruct Hrun as (sv & services & sd & ed & acct & items & report & st1 &
                    _ & _ & _ & _ & _ & _ & Hloop & -> & ->).
  split; [reflexivity |].
  exists report. split; [reflexivity |].
  exists items, acct, sd, ed, st1. split; [exact Hloop | reflexivity].
Qed.

(** C8: the handler queries the billing API once per entry of the decoded
    array, in the order of the array, each call made in the world the call
    before left; nothing else is called.  The entries after one are visited
    once its call has been made and its result stored in the report. *)
Theorem lambda_handler_calls_in_order
    event context st (sv sd ed acct : pyval) (entries names : list pyval) :
  getitem event "services" = Ok sv ->
  json_loads sv = Ok (PList entries) ->
  Forall2 (fun entry name => service_of entry = Some name) entries names ->
  getitem event "start_date" = Ok sd ->
  getitem event "end_date" = Ok ed ->
  getitem event "account_id" = Ok acct ->
  let queries := map (fun name => cost_query name acct sd ed) names in
  let events := fst (api_run queries (world st)) in
  let w := snd (api_run queries (world st)) in
  map fst events = queries /\
  length events = length entries /\
  (forall response st',
     lambda_handler event context st = (Ok response, st') ->
     calls st' = calls st ++ events /\ world st' = w) /\
  (Forall (fun name => hashable name = true) names ->
   exists response lg,
     lambda_handler event context st =
       (Ok response, mk_state w (calls st ++ events) lg)) /\
  (forall entry rest name (cost_breakdown : dict) st0,
     service_of entry = Some name ->
     hashable name = true ->
     for_services (entry :: rest) acct sd ed cost_breakdown st0 =
     let query := cost_query name acct sd ed in
     let (outcome, w1) := get_cost_and_usage query (world st0) in
     for_services rest acct sd ed
       (dict_put cost_breakdown name (result_of_call outcome))
       (mk_state w1 (calls st0 ++ [(query, outcome)])
          (log st0 ++ error_log name outcome))).
Proof.
  intros Hsv Hload Hnames Hsd Hed Hacct. cbv zeta.
  pose proof (lambda_handler_run event context sv (PList entries) sd ed acct entries st
                Hsv Hload Hsd Hed Hacct eq_refl) as Hrun.
  split; [apply api_run_queries |].
  split.
  { rewrite api_run_length, length_map. symmetry. eapply Forall2_length. exact Hnames. }
  split.
  - intros response st' Hok.
    assert (Hhash : Forall (fun name => hashable name = true) names).
    { rewrite Hok in Hrun.
      destruct (for_services entries acct sd ed [] st) as [[report | ?] st1] eqn:Hloop;
        [| discriminate].
      eapply for_services_hashable; eassumption. }
    rewrite (for_services_run _ _ _ _ _ _ _ Hnames Hhash) in Hrun.
    destruct (api_run _ (world st)) as [events w].
    rewrite Hok in Hrun. injection Hrun as _ ->. split; reflexivity.
  - split.
    + intros Hhash.
      rewrite (for_services_run _ _ _ _ _ _ _ Hnames Hhash) in Hrun.
      destruct (api_run _ (world st)) as [events w].
      rewrite Hrun. simpl. eauto.
    + intros entry rest name cost_breakdown st0 Hentry Hname.
      apply getitem_Service in Hentry.
      rewrite for_services_cons, Hentry, breakdown_service_cost_run. cbv zeta.
      destruct (get_cost_and_usage _ (world st0)) as [outcome w1].
      unfold setitem. rewrite Hname. reflexivity.
Qed.

(** C9: when the [services] field decodes to the empty array the handler
    calls the billing API not at all, and its response has the status code
    200 and the encoding of the empty dict as body. *)
Theorem lambda_handler_no_services event context st (sv : pyval) :
  getitem event "services" = Ok sv ->
  json_loads sv = Ok (PList []) ->
  json_dumps (PDict []) = "{}" ->
  (forall outcome st',
     lambda_handler event context st = (outcome, st') ->
     calls st' = calls st /\ world st' = world st) /\
  (Forall (fun key => exists v, getitem event key = Ok v) other_keys ->
   lambda_handler event context st =
     (Ok (PDict [(PStr "statusCode", PInt 200); (PStr "body", PStr "{}")]),
      mk_state (world st) (calls st) (log st ++ [LogInfo (PDict [])]))).
Proof.
  intros Hsv Hload Hdumps.
  pose proof (lambda_handler_prelude event context st) as Hrun.
  rewrite Hsv, Hload in Hrun. split.
  - intros outcome st' Hout.
    destruct (getitem event "start_date") as [sd | ?];
      [| rewrite Hrun in Hout; injection Hout as _ <-; split; reflexivity].
    destruct (getitem event "end_date") as [ed | ?];
      [| rewrite Hrun in Hout; injection Hout as _ <-; split; reflexivity].
    destruct (getitem event "account_id") as [acct | ?];
      [| rewrite Hrun in Hout; injection Hout as _ <-; split; reflexivity].
    simpl in Hrun. rewrite Hrun in Hout. injection Hout as _ <-. split; reflexivity.
  - intros Hkeys. unfold other_keys in Hkeys.
    inversion Hkeys as [| ? ? [sd Hsd] Hkeys1]; subst.
    inversion Hkeys1 as [| ? ? [ed Hed] Hkeys2]; subst.
    inversion Hkeys2 as [| ? ? [acct Hacct] _]; subst.
    rewrite Hsd, Hed, Hacct in Hrun. simpl in Hrun. rewrite Hrun.
    unfold response_200. rewrite Hdumps. reflexivity.
Qed.

(** C10: an event without one of its four keys makes the handler raise and
    return nothing, with no call made.  Without [services] the error is the
    [KeyError] of that key.  With it, the field is decoded first: a decoding
    error is what is raised, and the first missing key among [start_date],
    [end_date] and [account_id], in that order, gives the [KeyError] only
    once the field has decoded. *)
Theorem lambda_handler_missing_key (d : dict) context st :
  (exists key, In key ("services" :: other_keys) /\ dict_get d (PStr key) = None) ->
  exists e,
    lambda_handler (PDict d) context st = (Raise e, st) /\
    (dict_get d (PStr "services") = None -> e = mk_exn KeyError "'services'") /\
    (forall sv,
       dict_get d (PStr "services") = Some sv ->
       match json_loads sv with
       | Raise e' => e = e'
       | Ok _ =>
           exn_class_of e = KeyError /\
           (dict_get d (PStr "start_date") = None -> e = mk_exn KeyError "'start_date'") /\
           (dict_get d (PStr "start_date") <> None ->
            dict_get d (PStr "end_date") = None -> e = mk_exn KeyError "'end_date'") /\
           (dict_get d (PStr "start_date") <> None ->
            dict_get d (PStr "end_date") <> None -> e = mk_exn KeyError "'account_id'")
       end).
Proof.
  intros (key & Hin & Hmissing).
  pose proof (lambda_handler_prelude (PDict d) context st) as Hrun.
  unfold getitem in Hrun.
  destruct (dict_get d (PStr "services")) as [sv |] eqn:Hsv.
  - destruct (json_loads sv) as [services | e'] eqn:Hload.
    + destruct (dict_get d (PStr "start_date")) as [sd |] eqn:Hsd.
      * destruct (dict_get d (PStr "end_date")) as [ed |] eqn:Hed.
        -- destruct (dict_get d (PStr "account_id")) as [acct |] eqn:Hacct.
           ++ exfalso. simpl in Hin.
              destruct Hin as [<- | [<- | [<- | [<- | []]]]]; congruence.
           ++ eexists. split; [exact Hrun |]. split; [discriminate |].
              intros sv' Hsv'. injection Hsv' as <-. rewrite Hload.
              repeat split; try reflexivity; congruence.
        -- eexists. split; [exact Hrun |]. split; [discriminate |].
           intros sv' Hsv'. injection Hsv' as <-. rewrite Hload.
           repeat split; try reflexivity; congruence.
      * eexists. split; [exact Hrun |]. split; [discriminate |].
        intros sv' Hsv'. injection Hsv' as <-. rewrite Hload.
        repeat split; try reflexivity; congruence.
    + eexists. split; [exact Hrun |]. split; [discriminate |].
      intros sv' Hsv'. injection Hsv' as <-. rewrite Hload. reflexivity.
  - eexists. split; [exact Hrun |]. split; [reflexivity |]. discriminate.
Qed.

End Handler.

(** ** The properties on the scenarios *)

Section Runs.

Import Reference Scenario.

Lemma two_names_hashable : Forall (fun name => hashable name = true) two_names.
Proof. repeat constructor. Qed.

Lemma event_has_other_keys (services : string) :
  Forall (fun key => exists v, getitem (event_of services) key = Ok v) other_keys.
Proof. repeat constructor; eexists; reflexivity. Defined.

(** A throttled call for Amazon S3 is caught, logged and turned into
    [None]. *)
Lemma breakdown_service_cost_catches_witness :
  breakdown_service_cost (PStr "Amazon S3") account_id start_date end_date
    (fresh [Raise throttled]) =
    (Ok PNone,
     mk_state [] [(query_for "Amazon S3", Raise throttled)]
       [LogError (error_message (PStr "Amazon S3") throttled)]) /\
  contains (error_message (PStr "Amazon S3") throttled) "Amazon S3" /\
  contains (error_message (PStr "Amazon S3") throttled) (exn_str throttled) /\
  (forall name, PStr "Amazon S3" = PStr name ->
                contains (error_message (PStr "Amazon S3") throttled) name).
Proof.
  exact (breakdown_service_cost_catches (R := runtime)
           (PStr "Amazon S3") account_id start_date end_date
           (fresh [Raise throttled]) throttled [] eq_refl).
Defined.

(** The two days the API answers for Amazon EC2 are returned as they are;
    and an invocation that names Amazon EC2 twice, the first call throttled,
    returns and logs a report that holds those two days under that name. *)
Lemma results_stored_unmodified_witness :
  breakdown_service_cost (PStr "Amazon EC2") account_id start_date end_date
    (fresh [Ok (answer ec2_results)]) =
    (Ok ec2_results,
     mk_state [] [(query_for "Amazon EC2", Ok (answer ec2_results))] []) /\
  exists (report : dict) (lg : list log_record),
    lambda_handler (event_of twice_the_same) PNone
      (fresh [Raise throttled; Ok (answer ec2_results)]) =
      (Ok (PDict [(PStr "statusCode", PInt 200);
                  (PStr "body", PStr (json_dumps (PDict report)))]),
       mk_state []
         [ (query_for "Amazon EC2", Raise throttled);
           (query_for "Amazon EC2", Ok (answer ec2_results)) ]
         (lg ++ [LogInfo (PDict report)])) /\
    dict_get report (PStr "Amazon EC2") = Some ec2_results.
Proof.
  split.
  - exact (proj1 (results_stored_unmodified (R := runtime))
             (PStr "Amazon EC2") account_id start_date end_date
             (fresh [Ok (answer ec2_results)]) (answer ec2_results) ec2_results []
             eq_refl eq_refl).
  - pose proof (proj2 (results_stored_unmodified (R := runtime))
                  (event_of twice_the_same) PNone
                  (fresh [Raise throttled; Ok (answer ec2_results)])
                  (PStr twice_the_same) start_date end_date account_id
                  [service_entry "Amazon EC2"; service_entry "Amazon EC2"]
                  [PStr "Amazon EC2"; PStr "Amazon EC2"]
                  eq_refl) as H.
    specialize (H ltac:(vm_compute; reflexivity) ltac:(repeat constructor)
                  eq_refl eq_refl eq_refl).
    destruct H as (_ & _ & _ & Hreturns).
    destruct (Hreturns ltac:(repeat constructor)) as (report & lg & Hrun & Hstored).
    exists report, lg. split; [exact Hrun |].
    apply (Hstored 1%nat (PStr "Amazon EC2") (query_for "Amazon EC2")
             (answer ec2_results) ec2_results eq_refl eq_refl eq_refl).
    intros j name' Hj Hnth.
    destruct j as [| [| [| j]]]; try discriminate Hnth; inversion Hj as [| ? Hj'];
      inversion Hj'.
Defined.

(** A throttled call gives [None], an answer without any day gives the empty
    list. *)
Lemma failure_is_None_empty_is_list_witness :
  fst (breakdown_service_cost (PStr "Amazon S3") account_id start_date end_date
         (fresh [Raise throttled])) = Ok PNone /\
  fst (breakdown_service_cost (PStr "Amazon S3") account_id start_date end_date
         (fresh [Ok (answer (PList []))])) = Ok (PList []).
Proof.
  split.
  - exact (proj1 (failure_is_None_empty_is_list (R := runtime)
                    (PStr "Amazon S3") account_id start_date end_date
                    (fresh [Raise throttled]))
             throttled [] eq_refl).
  - exact (proj1 (proj2 (failure_is_None_empty_is_list (R := runtime)
                           (PStr "Amazon S3") account_id start_date end_date
                           (fresh [Ok (answer (PList []))])))
             (answer (PList [])) [] eq_refl eq_refl).
Defined.

(** The same name twice, the first call throttled: one key, holding the
    result of the second call. *)
Lemma report_keys_are_service_names_witness :
  let event := event_of twice_the_same in
  let names := [PStr "Amazon EC2"; PStr "Amazon EC2"] in
  let st := fresh [Raise throttled; Ok (answer ec2_results)] in
  lambda_handler event PNone st =
    (Ok (response_200 (dumps (PDict [(PStr "Amazon EC2", ec2_results)]))),
     mk_state []
       [ (query_for "Amazon EC2", Raise throttled);
         (query_for "Amazon EC2", Ok (answer ec2_results)) ]
       [ LogError (error_message (PStr "Amazon EC2") throttled);
         LogInfo (PDict [(PStr "Amazon EC2", ec2_results)]) ]) /\
  (forall response st',
     lambda_handler event PNone st = (Ok response, st') ->
     exists (report : dict) (events : list api_event),
       response =
         PDict [(PStr "statusCode", PInt 200);
                (PStr "body", PStr (json_dumps (PDict report)))] /\
       calls st' = calls st ++ events /\
       length events = length names /\
       NoDupA key_eq (dict_keys report) /\
       (forall k, InA key_eq k (dict_keys report) <-> InA key_eq k names) /\
       (Forall (fun name => is_str name = true) names ->
        NoDup (dict_keys report) /\
        (forall k, In k (dict_keys report) <-> In k names)) /\
       (forall i name ev,
          nth_error names i = Some name ->
          nth_error events i = Some ev ->
          (forall j name', (i < j)%nat -> nth_error names j = Some name' ->
                           key_eqb name' name = false) ->
          dict_get report name = Some (result_of_call (snd ev)))) /\
  (forall e, result_of_call (Raise e) = PNone) /\
  (Forall (fun name => hashable name = true) names ->
   Forall (fun key => exists v, getitem event key = Ok v) other_keys ->
   exists response st', lambda_handler event PNone st = (Ok response, st')).
Proof.
  cbv zeta. split; [reflexivity |].
  apply (report_keys_are_service_names (R := runtime)
           (event_of twice_the_same) PNone
           (fresh [Raise throttled; Ok (answer ec2_results)])
           (PStr twice_the_same)
           [service_entry "Amazon EC2"; service_entry "Amazon EC2"]
           [PStr "Amazon EC2"; PStr "Amazon EC2"]).
  - reflexivity.
  - vm_compute. reflexivity.
  - repeat constructor.
Defined.

(** Text that is no JSON raises the decoding error at once; an entry without
    [Service] raises the [KeyError] after the call for the entry before it. *)
Lemma lambda_handler_malformed_services_witness :
  (exists e,
     lambda_handler (event_of "not valid json") PNone (fresh [Raise throttled]) =
       (Raise e, fresh [Raise throttled]) /\
     exn_class_of e = JSONDecodeError) /\
  exists st',
    lambda_handler (event_of second_without_Service) PNone (fresh [Raise throttled]) =
      (Raise (mk_exn KeyError "'Service'"), st') /\
    calls st' = [(query_for "Amazon EC2", Raise throttled)].
Proof.
  split.
  - exists (mk_exn JSONDecodeError "Expecting value"). split; [| reflexivity].
    apply (proj1 (lambda_handler_malformed_services (R := runtime)
                    (event_of "not valid json") PNone (fresh [Raise throttled])
                    (PStr "not valid json") eq_refl)).
    vm_compute. reflexivity.
  - apply (proj2 (proj2 (lambda_handler_malformed_services (R := runtime)
                           (event_of second_without_Service) PNone
                           (fresh [Raise throttled])
                           (PStr second_without_Service) eq_refl))
             [service_entry "Amazon EC2"] [PStr "Amazon EC2"]
             [(PStr "Name", PStr "Amazon S3")] []
             start_date end_date account_id).
    + vm_compute. reflexivity.
    + repeat constructor.
    + repeat constructor.
    + reflexivity.
    + reflexivity.
    + reflexivity.
    + reflexivity.
Defined.

(** Two services, the second call failing for want of an endpoint: status
    200 all the same. *)
Lemma lambda_handler_returns_200_witness :
  let response :=
    response_200
      (dumps (PDict [(PStr "Amazon EC2", ec2_results); (PStr "Amazon S3", PNone)])) in
  getitem response "statusCode" = Ok (PInt 200) /\
  exists (report : dict),
    response =
      PDict [(PStr "statusCode", PInt 200);
             (PStr "body", PStr (json_dumps (PDict report)))] /\
    (exists items acct sd ed st1,
       for_services items acct sd ed [] (fresh [Ok (answer ec2_results)]) =
         (Ok report, st1) /\
       log (snd (lambda_handler (event_of two_services) PNone
                   (fresh [Ok (answer ec2_results)]))) =
         log st1 ++ [LogInfo (PDict report)]).
Proof.
  cbv zeta.
  apply (lambda_handler_returns_200 (R := runtime)
           (event_of two_services) PNone _ (fresh [Ok (answer ec2_results)])
           (snd (lambda_handler (event_of two_services) PNone
                   (fresh [Ok (answer ec2_results)])))).
  reflexivity.
Defined.

(** Two services: two calls, EC2 first, S3 second. *)
Lemma lambda_handler_calls_in_order_witness :
  let events :=
    [ (query_for "Amazon EC2", Ok (answer ec2_results));
      (query_for "Amazon S3", Raise throttled) ] in
  map fst events = [query_for "Amazon EC2"; query_for "Amazon S3"] /\
  length events = 2%nat /\
  exists response lg,
    lambda_handler (event_of two_services) PNone
      (fresh [Ok (answer ec2_results); Raise throttled]) =
      (Ok response, mk_state [] events lg).
Proof.
  cbv zeta.
  pose proof (lambda_handler_calls_in_order (R := runtime)
                (event_of two_services) PNone
                (fresh [Ok (answer ec2_results); Raise throttled])
                (PStr two_services) start_date end_date account_id
                [service_entry "Amazon EC2"; service_entry "Amazon S3"] two_names
                eq_refl) as H.
  specialize (H ltac:(vm_compute; reflexivity) ltac:(repeat constructor)
                eq_refl eq_refl eq_refl).
  destruct H as (Hqueries & Hlength & _ & Hrun & _).
  split; [exact Hqueries |]. split; [exact Hlength |].
  exact (Hrun two_names_hashable).
Defined.

(** No service: the script of the API is left untouched and the body is the
    empty JSON object. *)
Lemma lambda_handler_no_services_witness :
  lambda_handler (event_of "[]") PNone (fresh [Ok (answer ec2_results)]) =
    (Ok (PDict [(PStr "statusCode", PInt 200); (PStr "body", PStr "{}")]),
     mk_state [Ok (answer ec2_results)] [] [LogInfo (PDict [])]).
Proof.
  apply (proj2 (lambda_handler_no_services (R := runtime)
                  (event_of "[]") PNone (fresh [Ok (answer ec2_results)])
                  (PStr "[]") eq_refl eq_refl eq_refl)).
  apply event_has_other_keys.
Defined.

(** Without [end_date]: the [KeyError] of that key when the services decode,
    the decoding error when they do not. *)
Lemma lambda_handler_missing_key_witness :
  (exists e,
     lambda_handler (PDict (event_without_end_date "[]")) PNone (fresh []) =
       (Raise e, fresh []) /\
     e = mk_exn KeyError "'end_date'") /\
  (exists e,
     lambda_handler (PDict (event_without_end_date "not valid json")) PNone (fresh []) =
       (Raise e, fresh []) /\
     exn_class_of e = JSONDecodeError).
Proof.
  split.
  - destruct (lambda_handler_missing_key (R := runtime)
                (event_without_end_date "[]") PNone (fresh [])
                (ex_intro _ "end_date" (conj (or_intror (or_intror (or_introl eq_refl)))
                                             eq_refl)))
      as (e & Hrun & _ & Hdecoded).
    exists e. split; [exact Hrun |].
    exact (proj1 (proj2 (proj2 (Hdecoded (PStr "[]") eq_refl)))
             ltac:(discriminate) eq_refl).
  - destruct (lambda_handler_missing_key (R := runtime)
                (event_without_end_date "not valid json") PNone (fresh [])
                (ex_intro _ "end_date" (conj (or_intror (or_intror (or_introl eq_refl)))
                                             eq_refl)))
      as (e & Hrun & _ & Hdecoded).
    exists e. split; [exact Hrun |].
    exact (f_equal exn_class_of (Hdecoded (PStr "not valid json") eq_refl)).
Defined.

End Runs.

(** * Further properties of the two functions *)

(** ** Keys in the order of their first occurrence *)

Lemma filter_seen (x : pyval) (seen l : list pyval) :
  existsb (fun k' => key_eqb k' x) seen = true ->
  filter (fun y => negb (existsb (fun k' => key_eqb k' y) seen))
    (filter (fun y => negb (key_eqb x y)) l) =
  filter (fun y => negb (existsb (fun k' => key_eqb k' y) seen)) l.
Proof.
  intros Hx. induction l as [| y l IH]; simpl; [reflexivity |].
  destruct (key_eqb x y) eqn:Hxy; simpl.
  - assert (Hy : existsb (fun k' => key_eqb k' y) seen = true).
    { apply existsb_exists in Hx. destruct Hx as (a & Ha & Hax).
      apply existsb_exists. exists a. split; [exact Ha |].
      eapply key_eq_trans; eassumption. }
    rewrite Hy. simpl. exact IH.
  - rewrite IH. reflexivity.
Qed.

Lemma filter_seen_new (x : pyval) (seen l : list pyval) :
  filter (fun y => negb (existsb (fun k' => key_eqb k' y) (seen ++ [x]))) l =
  filter (fun y => negb (existsb (fun k' => key_eqb k' y) seen))
    (filter (fun y => negb (key_eqb x y)) l).
Proof.
  induction l as [| y l IH]; simpl; [reflexivity |].
  rewrite existsb_app. simpl. rewrite orb_false_r.
  destruct (key_eqb x y); simpl.
  - rewrite orb_true_r. simpl. exact IH.
  - rewrite orb_false_r.
    destruct (existsb (fun k' => key_eqb k' y) seen); simpl; rewrite IH; reflexivity.
Qed.

Lemma fold_add_key (l seen : list pyval) :
  fold_left add_key l seen =
  seen ++ filter (fun y => negb (existsb (fun k' => key_eqb k' y) seen))
            (first_occurrences l).
Proof.
  revert seen. induction l as [| x l IH]; intros seen; simpl.
  - rewrite app_nil_r. reflexivity.
  - rewrite IH. unfold add_key.
    destruct (existsb (fun k' => key_eqb k' x) seen) eqn:Hx; simpl.
    + rewrite filter_seen by assumption. reflexivity.
    + rewrite <- app_assoc. simpl. rewrite filter_seen_new. reflexivity.
Qed.

Lemma fold_add_key_nil (l : list pyval) : fold_left add_key l [] = first_occurrences l.
Proof.
  rewrite fold_add_key. simpl.
  induction (first_occurrences l) as [| y r IH]; simpl; [| rewrite IH]; reflexivity.
Qed.

Lemma all_None_put (keys : list pyval) (k : pyval) :
  dict_put (all_None keys) k PNone = all_None (add_key keys k).
Proof.
  unfold add_key, all_None. induction keys as [| a keys IH]; simpl.
  - reflexivity.
  - destruct (key_eqb a k); simpl; [reflexivity |].
    rewrite IH. destruct (existsb _ keys); reflexivity.
Qed.

Section More.

Context {R : Runtime}.

Implicit Types (event context : pyval) (st : state).

Lemma dict_keys_report_of (names : list pyval) (events : list api_event) (acc : dict) :
  length events = length names ->
  dict_keys (report_of names events acc) = fold_left add_key names (dict_keys acc).
Proof.
  revert events acc. induction names as [| name names IH]; intros events acc Hlen.
  - destruct events; [reflexivity | discriminate].
  - destruct events as [| ev events]; [discriminate |].
    unfold report_of in *. simpl. rewrite IH by (simpl in Hlen; lia).
    rewrite dict_keys_put. reflexivity.
Qed.

(** X1: the keys of the report of a response stand in the order in which
    the names first occur in the decoded array; a name met again keeps its
    place. *)
Theorem report_keys_in_input_order
    event context st (sv : pyval) (entries names : list pyval) (response : pyval) st' :
  getitem event "services" = Ok sv ->
  json_loads sv = Ok (PList entries) ->
  Forall2 (fun entry name => service_of entry = Some name) entries names ->
  lambda_handler event context st = (Ok response, st') ->
  exists report : dict,
    response =
      PDict [(PStr "statusCode", PInt 200);
             (PStr "body", PStr (json_dumps (PDict report)))] /\
    dict_keys report = first_occurrences names.
Proof.
  intros Hsv Hload Hnames Hrun.
  destruct (lambda_handler_report _ _ _ _ _ _ _ _ Hsv Hload Hnames Hrun)
    as (events & Hlen & _ & -> & _).
  exists (report_of names events []). split; [reflexivity |].
  rewrite dict_keys_report_of by assumption. apply fold_add_key_nil.
Qed.

(** X2: an answer of the billing API that has no [ResultsByTime] counts as a
    failure: the subscript raises inside the [try] block, so the query
    returns [None] and logs the [KeyError] under the service name. *)
Theorem answer_without_results_is_a_failure
    (service account_id start_date end_date : pyval) st (response : dict) (w : World) :
  let query := cost_query service account_id start_date end_date in
  get_cost_and_usage query (world st) = (Ok response, w) ->
  dict_get response (PStr "ResultsByTime") = None ->
  breakdown_service_cost service account_id start_date end_date st =
    (Ok PNone,
     mk_state w (calls st ++ [(query, Ok response)])
       (log st ++
        [LogError
           ("Error fetching cost breakdown for " ++ py_str service ++ ": 'ResultsByTime'")])).
Proof.
  intros query Hcall Hmissing.
  rewrite breakdown_service_cost_run. cbv zeta. fold query. rewrite Hcall.
  unfold result_of_call, error_log, caught, getitem. rewrite Hmissing. reflexivity.
Qed.

Lemma api_run_snoc (queries : list pyval) (query : pyval) (w : World) :
  api_run (queries ++ [query]) w =
  let (events, w1) := api_run queries w in
  let (outcome, w2) := get_cost_and_usage query w1 in
  (events ++ [(query, outcome)], w2).
Proof.
  revert w. induction queries as [| q0 queries IH]; intros w; simpl.
  - destruct (get_cost_and_usage query w). reflexivity.
  - destruct (get_cost_and_usage q0 w) as [outcome0 w1].
    rewrite IH. destruct (api_run queries w1) as [events w2].
    destruct (get_cost_and_usage query w2). reflexivity.
Qed.

(** X3: a [Service] value that cannot be a dict key, a list or an object,
    stops the invocation with a [TypeError] and no response, but only at the
    assignment: the billing API has been called for it by then, after the
    calls for the entries before it. *)
Theorem unhashable_name_raises_after_its_call
    event context st (sv sd ed acct bad name : pyval) (good names rest : list pyval) :
  getitem event "services" = Ok sv ->
  json_loads sv = Ok (PList (good ++ bad :: rest)) ->
  Forall2 (fun entry name => service_of entry = Some name) good names ->
  Forall (fun name => hashable name = true) names ->
  service_of bad = Some name ->
  hashable name = false ->
  getitem event "start_date" = Ok sd ->
  getitem event "end_date" = Ok ed ->
  getitem event "account_id" = Ok acct ->
  let queries := map (fun name => cost_query name acct sd ed) (names ++ [name]) in
  exists lg,
    lambda_handler event context st =
      (Raise (mk_exn TypeError ("unhashable type: " ++ quote (type_name name))),
       mk_state (snd (api_run queries (world st)))
         (calls st ++ fst (api_run queries (world st))) lg).
Proof.
  intros Hsv Hload Hgood Hhash Hbad Hname Hsd Hed Hacct queries.
  pose proof (lambda_handler_prelude event context st) as Hrun.
  rewrite Hsv, Hload, Hsd, Hed, Hacct in Hrun. simpl in Hrun. rewrite Hrun.
  rewrite for_services_app, (for_services_run _ _ _ _ _ _ _ Hgood Hhash).
  unfold queries. rewrite map_app. cbn [map]. rewrite api_run_snoc.
  destruct (api_run _ (world st)) as [events w].
  apply getitem_Service in Hbad.
  rewrite for_services_cons, Hbad, breakdown_service_cost_run. cbn [world].
  destruct (get_cost_and_usage _ w) as [outcome w1].
  unfold setitem. rewrite Hname. cbn [fst snd calls].
  rewrite <- app_assoc. eexists. reflexivity.
Qed.

(** X4: the handler does not ask for an array.  A [services] field that
    decodes to an empty object or to the empty string gives what the empty
    array gives: no call, an empty report, status 200. *)
Theorem nothing_to_visit_is_an_empty_report
    event context st (sv services sd ed acct : pyval) :
  getitem event "services" = Ok sv ->
  json_loads sv = Ok services ->
  services = PList [] \/ services = PDict [] \/ services = PStr "" ->
  getitem event "start_date" = Ok sd ->
  getitem event "end_date" = Ok ed ->
  getitem event "account_id" = Ok acct ->
  lambda_handler event context st =
    (Ok (PDict [(PStr "statusCode", PInt 200);
                (PStr "body", PStr (json_dumps (PDict [])))]),
     mk_state (world st) (calls st) (log st ++ [LogInfo (PDict [])])).
Proof.
  intros Hsv Hload Hshape Hsd Hed Hacct.
  rewrite (lambda_handler_run event context sv services sd ed acct [] st);
    try assumption.
  - reflexivity.
  - destruct Hshape as [-> | [-> | ->]]; reflexivity.
Qed.

(** X5: a [services] field that decodes to a number, a boolean or null, to
    an object with members or to a string with characters makes the handler
    raise a [TypeError] before any call: the first three cannot be iterated,
    and the items of the other two are strings, which have no key
    [Service]. *)
Theorem services_not_an_array_raises
    event context st (sv services sd ed acct : pyval) :
  getitem event "services" = Ok sv ->
  json_loads sv = Ok services ->
  getitem event "start_date" = Ok sd ->
  getitem event "end_date" = Ok ed ->
  getitem event "account_id" = Ok acct ->
  match services with
  | PList _ => False
  | PDict members => members <> [] /\ Forall (fun k => is_str k = true) (dict_keys members)
  | PStr s => s <> ""
  | _ => True
  end ->
  exists e,
    lambda_handler event context st = (Raise e, st) /\ exn_class_of e = TypeError.
Proof.
  intros Hsv Hload Hsd Hed Hacct Hshape.
  pose proof (lambda_handler_prelude event context st) as Hrun.
  rewrite Hsv, Hload, Hsd, Hed, Hacct in Hrun.
  destruct services as [| b | n | x | s | items | members];
    try (cbn [iterate] in Hrun; eexists; split; [exact Hrun | reflexivity]).
  - destruct s as [| c s]; [congruence |]. cbn [iterate chars] in Hrun.
    rewrite for_services_cons in Hrun. cbn [getitem] in Hrun.
    eexists; split; [exact Hrun | reflexivity].
  - contradiction.
  - destruct Hshape as [Hne Hstr].
    destruct members as [| [k v] members]; [congruence |].
    inversion Hstr as [| ? ? Hk _]; subst. destruct k; try discriminate.
    cbn [iterate dict_keys map fst] in Hrun.
    rewrite for_services_cons in Hrun. cbn [getitem] in Hrun.
    eexists; split; [exact Hrun | reflexivity].
Qed.

End More.

(** ** Whole passes *)

Section Passes.

Context {R : Runtime}.

Implicit Types (event context : pyval) (st : state).

Lemma for_services_same (entries1 entries2 : list pyval)
    (acct sd ed : pyval) (acc : dict) st :
  Forall2 (fun e1 e2 => getitem e1 "Service" = getitem e2 "Service") entries1 entries2 ->
  for_services entries1 acct sd ed acc st = for_services entries2 acct sd ed acc st.
Proof.
  intros Hsame. revert acc st.
  induction Hsame as [| e1 e2 entries1 entries2 He _ IH]; intros acc st.
  - reflexivity.
  - rewrite !for_services_cons, He.
    destruct (getitem e2 "Service") as [name | e]; [| reflexivity].
    destruct (breakdown_service_cost name acct sd ed st) as [[breakdown | e] st1];
      [| reflexivity].
    destruct (setitem acc name breakdown) as [acc' | e]; [| reflexivity].
    apply IH.
Qed.

Lemma same_names_same_Service (entries1 entries2 names : list pyval) :
  Forall2 (fun entry name => service_of entry = Some name) entries1 names ->
  Forall2 (fun entry name => service_of entry = Some name) entries2 names ->
  Forall2 (fun e1 e2 => getitem e1 "Service" = getitem e2 "Service") entries1 entries2.
Proof.
  intros H1. revert entries2.
  induction H1 as [| e1 name entries1 names He1 _ IH]; intros entries2 H2;
    inversion H2 as [| e2 ? entries2' ? He2 H2']; subst; constructor.
  - apply getitem_Service in He1. apply getitem_Service in He2. congruence.
  - apply IH. exact H2'.
Qed.

(** X6: of an entry the handler reads the [Service] value and nothing else,
    and it does not read the context: two events whose arrays give the same
    names in the same order, and that agree on the three other fields, get
    the same outcome, with the same calls and the same log. *)
Theorem only_the_names_matter
    event1 event2 context1 context2 st (sv1 sv2 : pyval)
    (entries1 entries2 names : list pyval) :
  getitem event1 "services" = Ok sv1 ->
  json_loads sv1 = Ok (PList entries1) ->
  getitem event2 "services" = Ok sv2 ->
  json_loads sv2 = Ok (PList entries2) ->
  Forall2 (fun entry name => service_of entry = Some name) entries1 names ->
  Forall2 (fun entry name => service_of entry = Some name) entries2 names ->
  (forall key, In key other_keys -> getitem event1 key = getitem event2 key) ->
  lambda_handler event1 context1 st = lambda_handler event2 context2 st.
Proof.
  intros Hsv1 Hload1 Hsv2 Hload2 Hnames1 Hnames2 Hkeys.
  pose proof (lambda_handler_prelude event1 context1 st) as Hrun1.
  pose proof (lambda_handler_prelude event2 context2 st) as Hrun2.
  rewrite Hsv1, Hload1 in Hrun1. rewrite Hsv2, Hload2 in Hrun2.
  rewrite (Hkeys "start_date") in Hrun1 by (simpl; auto).
  rewrite (Hkeys "end_date") in Hrun1 by (simpl; auto).
  rewrite (Hkeys "account_id") in Hrun1 by (simpl; auto).
  destruct (getitem event2 "start_date") as [sd | ?]; [| congruence].
  destruct (getitem event2 "end_date") as [ed | ?]; [| congruence].
  destruct (getitem event2 "account_id") as [acct | ?]; [| congruence].
  cbn [iterate] in Hrun1, Hrun2. rewrite Hrun1, Hrun2.
  rewrite (for_services_same entries1 entries2)
    by (eapply same_names_same_Service; eassumption).
  reflexivity.
Qed.

(** Whatever its outcome, the loop has called the billing API for the names
    of the first entries, one call each, in order, and nothing else. *)
Lemma for_services_trace (entries : list pyval) (acct sd ed : pyval) (acc : dict)
    st (outcome : result dict) st' :
  for_services entries acct sd ed acc st = (outcome, st') ->
  exists names lg,
    (length names <= length entries)%nat /\
    Forall2 (fun entry name => service_of entry = Some name)
      (firstn (length names) entries) names /\
    calls st' =
      calls st ++
      fst (api_run (map (fun name => cost_query name acct sd ed) names) (world st)) /\
    world st' =
      snd (api_run (map (fun name => cost_query name acct sd ed) names) (world st)) /\
    log st' = log st ++ lg.
Proof.
  revert acc st. induction entries as [| entry entries IH]; intros acc st Hrun.
  - simpl in Hrun. injection Hrun as _ <-.
    exists [], []. simpl. rewrite !app_nil_r. repeat split; auto.
  - rewrite for_services_cons in Hrun.
    destruct (getitem entry "Service") as [name | e] eqn:Hentry.
    + apply getitem_Service in Hentry.
      rewrite breakdown_service_cost_run in Hrun. cbv zeta in Hrun.
      destruct (get_cost_and_usage (cost_query name acct sd ed) (world st))
        as [answer w1] eqn:Hcall.
      destruct (setitem acc name (result_of_call answer)) as [acc' | e].
      * apply IH in Hrun. destruct Hrun as (names & lg & Hlen & Hnames & Hc & Hw & Hl).
        cbn [world calls log] in Hc, Hw, Hl.
        exists (name :: names), (error_log name answer ++ lg).
        cbn [length firstn map api_run]. rewrite Hcall.
        destruct (api_run _ w1) as [events w2]. cbn [fst snd] in *.
        repeat split.
        -- lia.
        -- constructor; assumption.
        -- rewrite Hc, <- app_assoc. reflexivity.
        -- exact Hw.
        -- rewrite Hl, <- app_assoc. reflexivity.
      * injection Hrun as _ <-.
        exists [name], (error_log name answer).
        cbn [length firstn map api_run]. rewrite Hcall. cbn [fst snd world calls log].
        repeat split.
        -- lia.
        -- constructor; [assumption | constructor].
    + injection Hrun as _ <-.
      exists [], []. simpl. rewrite !app_nil_r. repeat split; auto. lia.
Qed.

(** X7: whatever the outcome of an invocation, a response or an exception,
    the handler has only added to the calls and to the log, and the calls it
    added are the queries for the names of the first items of the decoded
    value, one each, in order: never more calls than items, never a call
    out of turn. *)
Theorem calls_are_queries_of_a_prefix
    event context st (outcome : result pyval) st' :
  lambda_handler event context st = (outcome, st') ->
  (exists events lg, calls st' = calls st ++ events /\ log st' = log st ++ lg) /\
  (forall sv services items sd ed acct,
     getitem event "services" = Ok sv ->
     json_loads sv = Ok services ->
     iterate services = Ok items ->
     getitem event "start_date" = Ok sd ->
     getitem event "end_date" = Ok ed ->
     getitem event "account_id" = Ok acct ->
     exists names,
       (length names <= length items)%nat /\
       Forall2 (fun entry name => service_of entry = Some name)
         (firstn (length names) items) names /\
       calls st' =
         calls st ++
         fst (api_run (map (fun name => cost_query name acct sd ed) names) (world st)) /\
       world st' =
         snd (api_run (map (fun name => cost_query name acct sd ed) names) (world st))).
Proof.
  intros Hout.
  assert (Hloop : forall items acct sd ed,
            lambda_handler event context st =
            match for_services items acct sd ed [] st with
            | (Ok report, st1) =>
                (Ok (response_200 (json_dumps (PDict report))),
                 mk_state (world st1) (calls st1) (log st1 ++ [LogInfo (PDict report)]))
            | (Raise e, st1) => (Raise e, st1)
            end ->
            exists names lg,
              (length names <= length items)%nat /\
              Forall2 (fun entry name => service_of entry = Some name)
                (firstn (length names) items) names /\
              calls st' =
                calls st ++
                fst (api_run (map (fun name => cost_query name acct sd ed) names)
                       (world st)) /\
              world st' =
                snd (api_run (map (fun name => cost_query name acct sd ed) names)
                       (world st)) /\
              log st' = log st ++ lg).
  { intros items acct sd ed Hrun. rewrite Hrun in Hout.
    destruct (for_services items acct sd ed [] st) as [loop st1] eqn:Hfor.
    apply for_services_trace in Hfor.
    destruct Hfor as (names & lg & Hlen & Hnames & Hc & Hw & Hl).
    destruct loop; injection Hout as _ <-; cbn [calls world log].
    - exists names, (lg ++ [LogInfo (PDict a)]).
      rewrite Hl, <- app_assoc. auto.
    - exists names, lg. auto. }
  split.
  - assert (Hsame : forall e, lambda_handler event context st = (Raise e, st) ->
                              exists events lg,
                                calls st' = calls st ++ events /\
                                log st' = log st ++ lg).
    { intros e He. rewrite He in Hout. injection Hout as _ <-.
      exists [], []. rewrite !app_nil_r. split; reflexivity. }
    pose proof (lambda_handler_prelude event context st) as Hrun.
    destruct (getitem event "services") as [sv | ?]; [| eapply Hsame; exact Hrun].
    destruct (json_loads sv) as [services | ?]; [| eapply Hsame; exact Hrun].
    destruct (getitem event "start_date") as [sd | ?]; [| eapply Hsame; exact Hrun].
    destruct (getitem event "end_date") as [ed | ?]; [| eapply Hsame; exact Hrun].
    destruct (getitem event "account_id") as [acct | ?]; [| eapply Hsame; exact Hrun].
    destruct (iterate services) as [items | ?]; [| eapply Hsame; exact Hrun].
    destruct (Hloop items acct sd ed Hrun) as (names & lg & _ & _ & Hc & _ & Hl).
    eauto.
  - intros sv services items sd ed acct Hsv Hload Hiter Hsd Hed Hacct.
    destruct (Hloop items acct sd ed
                (lambda_handler_run event context sv services sd ed acct items st
                   Hsv Hload Hsd Hed Hacct Hiter))
      as (names & lg & Hlen & Hnames & Hc & Hw & _).
    exists names. auto.
Qed.

End Passes.

(** ** History, log and failure of every call *)

Section History.

Context {R : Runtime}.

Implicit Types (event context : pyval) (st : state).

Lemma after_blank st : after st (blank st) = st.
Proof. destruct st. unfold after, blank. simpl. rewrite !app_nil_r. reflexivity. Qed.

Lemma for_services_frame (entries : list pyval) (acct sd ed : pyval) (acc : dict) st :
  for_services entries acct sd ed acc st =
  let (outcome, delta) := for_services entries acct sd ed acc (blank st) in
  (outcome, after st delta).
Proof.
  revert acc st. induction entries as [| entry entries IH]; intros acc st.
  - simpl. unfold ret. rewrite after_blank. reflexivity.
  - rewrite !for_services_cons.
    destruct (getitem entry "Service") as [name | e];
      [| rewrite after_blank; reflexivity].
    rewrite !breakdown_service_cost_run. cbv zeta. cbn [blank world calls log].
    destruct (get_cost_and_usage (cost_query name acct sd ed) (world st))
      as [answer w1].
    destruct (setitem acc name (result_of_call answer)) as [acc' | e];
      [| reflexivity].
    rewrite IH. rewrite (IH acc' (mk_state w1 _ _)).
    unfold blank. cbn [world].
    destruct (for_services entries acct sd ed acc' (mk_state w1 [] []))
      as [outcome delta].
    unfold after. cbn [world calls log app]. rewrite <- !app_assoc. reflexivity.
Qed.

(** An invocation depends on the calls and the records of the past only
    through the world: started after a history, it returns or raises what it
    does from a blank state in the same world, and adds to that history what
    it adds to the blank state. *)
Lemma lambda_handler_forgets_history event context st :
  lambda_handler event context st =
  let (outcome, delta) := lambda_handler event context (blank st) in
  (outcome, after st delta).
Proof.
  pose proof (lambda_handler_prelude event context st) as Hrun.
  pose proof (lambda_handler_prelude event context (blank st)) as Hblank.
  destruct (getitem event "services") as [sv | ?];
    [| rewrite Hrun, Hblank, after_blank; reflexivity].
  destruct (json_loads sv) as [services | ?];
    [| rewrite Hrun, Hblank, after_blank; reflexivity].
  destruct (getitem event "start_date") as [sd | ?];
    [| rewrite Hrun, Hblank, after_blank; reflexivity].
  destruct (getitem event "end_date") as [ed | ?];
    [| rewrite Hrun, Hblank, after_blank; reflexivity].
  destruct (getitem event "account_id") as [acct | ?];
    [| rewrite Hrun, Hblank, after_blank; reflexivity].
  destruct (iterate services) as [items | ?];
    [| rewrite Hrun, Hblank, after_blank; reflexivity].
  rewrite Hrun, Hblank, for_services_frame.
  destruct (for_services items acct sd ed [] (blank st)) as [[report | e] delta].
  - unfold after. cbn [world calls log]. rewrite <- app_assoc. reflexivity.
  - reflexivity.
Qed.

Lemma error_log_length (name : pyval) (ev : api_event) :
  length (error_log name (snd ev)) = if failed ev then 1%nat else 0%nat.
Proof. unfold error_log, failed. destruct (caught (snd ev)); reflexivity. Qed.

Lemma error_logs_length (names : list pyval) (events : list api_event) :
  length events = length names ->
  length (error_logs names events) = length (filter failed events).
Proof.
  revert events. induction names as [| name names IH]; intros events Hlen.
  - destruct events; [reflexivity | discriminate].
  - destruct events as [| ev events]; [discriminate |].
    unfold error_logs in *. simpl. rewrite length_app, IH by (simpl in Hlen; lia).
    rewrite error_log_length. destruct (failed ev); reflexivity.
Qed.

Lemma error_logs_errors (names : list pyval) (events : list api_event) :
  Forall (fun record => exists msg, record = LogError msg) (error_logs names events).
Proof.
  revert events. induction names as [| name names IH]; intros events.
  - constructor.
  - destruct events as [| ev events]; [constructor |].
    unfold error_logs in *. simpl. apply Forall_app. split; [| apply IH].
    unfold error_log. cbn [fst snd]. destruct (caught (snd ev)).
    + constructor; [eexists; reflexivity | constructor].
    + constructor.
Qed.

(** X8: what an invocation that returns has logged: one error record per
    failed call, in the order of the calls, then one info record, the last,
    that carries the report of the response. *)
Theorem log_of_an_invocation
    event context st (sv : pyval) (entries names : list pyval) (response : pyval) st' :
  getitem event "services" = Ok sv ->
  json_loads sv = Ok (PList entries) ->
  Forall2 (fun entry name => service_of entry = Some name) entries names ->
  lambda_handler event context st = (Ok response, st') ->
  exists (report : dict) (events : list api_event),
    response =
      PDict [(PStr "statusCode", PInt 200);
             (PStr "body", PStr (json_dumps (PDict report)))] /\
    calls st' = calls st ++ events /\
    log st' = log st ++ error_logs names events ++ [LogInfo (PDict report)] /\
    length (error_logs names events) = length (filter failed events) /\
    Forall (fun record => exists msg, record = LogError msg) (error_logs names events).
Proof.
  intros Hsv Hload Hnames Hrun.
  apply lambda_handler_inv in Hrun.
  destruct Hrun as (sv' & services & sd & ed & acct & items & report & st1 &
                    Hsv' & Hload' & _ & _ & _ & Hiter & Hloop & -> & ->).
  rewrite Hsv in Hsv'. injection Hsv' as <-.
  rewrite Hload in Hload'. injection Hload' as <-.
  cbn [iterate] in Hiter. injection Hiter as <-.
  pose proof (for_services_hashable _ _ _ _ _ _ _ _ _ Hnames Hloop) as Hhash.
  rewrite (for_services_run _ _ _ _ _ _ _ Hnames Hhash) in Hloop.
  pose proof (api_run_length
                (map (fun name => cost_query name acct sd ed) names) (world st)) as Hlen.
  destruct (api_run _ (world st)) as [events w]. cbn [fst] in Hlen.
  rewrite length_map in Hlen.
  injection Hloop as <- <-.
  exists (report_of names events []), events. cbn [calls log].
  split; [reflexivity |]. split; [reflexivity |].
  split; [rewrite <- app_assoc; reflexivity |].
  split; [apply error_logs_length; exact Hlen | apply error_logs_errors].
Qed.

Lemma failed_result (ev : api_event) : failed ev = true -> result_of_call (snd ev) = PNone.
Proof.
  unfold failed, caught, result_of_call.
  destruct (snd ev) as [response | e]; [| reflexivity].
  destruct (getitem (PDict response) "ResultsByTime"); [discriminate | reflexivity].
Qed.

Lemma report_of_all_None (names : list pyval) (events : list api_event) (keys : list pyval) :
  length events = length names ->
  Forall (fun ev => failed ev = true) events ->
  report_of names events (all_None keys) = all_None (fold_left add_key names keys).
Proof.
  revert events keys. induction names as [| name names IH]; intros events keys Hlen Hfail.
  - destruct events; [reflexivity | discriminate].
  - destruct events as [| ev events]; [discriminate |].
    inversion Hfail as [| ? ? Hev Hrest]; subst.
    unfold report_of in *. cbn [combine fold_left fst snd].
    rewrite (failed_result ev Hev), all_None_put.
    apply IH; [simpl in Hlen; lia | exact Hrest].
Qed.

(** X9: the failure of every call is not a failure of the invocation: when
    all the calls fail the handler still answers with status 200, and its
    report holds [None] under every name, in the order of first occurrence. *)
Theorem every_call_failing_is_still_200
    event context st (sv sd ed acct : pyval) (entries names : list pyval) :
  getitem event "services" = Ok sv ->
  json_loads sv = Ok (PList entries) ->
  Forall2 (fun entry name => service_of entry = Some name) entries names ->
  Forall (fun name => hashable name = true) names ->
  getitem event "start_date" = Ok sd ->
  getitem event "end_date" = Ok ed ->
  getitem event "account_id" = Ok acct ->
  let queries := map (fun name => cost_query name acct sd ed) names in
  Forall (fun ev => failed ev = true) (fst (api_run queries (world st))) ->
  exists lg,
    lambda_handler event context st =
      (Ok (PDict [(PStr "statusCode", PInt 200);
                  (PStr "body",
                    PStr (json_dumps (PDict (all_None (first_occurrences names)))))]),
       mk_state (snd (api_run queries (world st)))
         (calls st ++ fst (api_run queries (world st))) lg).
Proof.
  intros Hsv Hload Hnames Hhash Hsd Hed Hacct queries Hfail.
  rewrite (lambda_handler_run event context sv (PList entries) sd ed acct entries st)
    by (assumption || reflexivity).
  rewrite (for_services_run _ _ _ _ _ _ _ Hnames Hhash). fold queries.
  pose proof (api_run_length queries (world st)) as Hlen.
  destruct (api_run queries (world st)) as [events w]. cbn [fst snd] in *.
  unfold queries in Hlen. rewrite length_map in Hlen.
  change (@nil (pyval * pyval)) with (all_None []).
  rewrite (report_of_all_None names events [] Hlen Hfail), fold_add_key_nil.
  eexists. reflexivity.
Qed.

End History.

(** ** The further properties on the scenarios *)

Section MoreRuns.

Import Reference Scenario.

(** EC2, S3, EC2 again: the report has EC2 first and S3 second. *)
Lemma report_keys_in_input_order_witness :
  exists report : dict,
    response_200 (dumps (PDict [(PStr "Amazon EC2", PList []); (PStr "Amazon S3", PNone)])) =
      PDict [(PStr "statusCode", PInt 200);
             (PStr "body", PStr (json_dumps (PDict report)))] /\
    dict_keys report = [PStr "Amazon EC2"; PStr "Amazon S3"].
Proof.
  apply (report_keys_in_input_order (R := runtime)
           (event_of ec2_s3_ec2) PNone
           (fresh [Ok (answer ec2_results); Raise throttled; Ok (answer (PList []))])
           (PStr ec2_s3_ec2)
           [service_entry "Amazon EC2"; service_entry "Amazon S3"; service_entry "Amazon EC2"]
           [PStr "Amazon EC2"; PStr "Amazon S3"; PStr "Amazon EC2"]
           _
           (snd (lambda_handler (event_of ec2_s3_ec2) PNone
                   (fresh [Ok (answer ec2_results); Raise throttled;
                           Ok (answer (PList []))])))).
  - reflexivity.
  - vm_compute. reflexivity.
  - repeat constructor.
  - reflexivity.
Defined.

(** An answer that only has its group definitions. *)
Lemma answer_without_results_is_a_failure_witness :
  breakdown_service_cost (PStr "Amazon EC2") account_id start_date end_date
    (fresh [Ok answer_without_results]) =
    (Ok PNone,
     mk_state [] [(query_for "Amazon EC2", Ok answer_without_results)]
       [LogError "Error fetching cost breakdown for Amazon EC2: 'ResultsByTime'"]).
Proof.
  exact (answer_without_results_is_a_failure (R := runtime)
           (PStr "Amazon EC2") account_id start_date end_date
           (fresh [Ok answer_without_results]) answer_without_results []
           eq_refl eq_refl).
Defined.

(** The second entry names its service by a list: two calls are made, the
    second with that list, and the invocation ends with the [TypeError]. *)
Lemma unhashable_name_raises_after_its_call_witness :
  exists lg,
    lambda_handler (event_of second_names_a_list) PNone
      (fresh [Ok (answer ec2_results); Raise throttled]) =
      (Raise (mk_exn TypeError "unhashable type: 'list'"),
       mk_state []
         [ (query_for "Amazon EC2", Ok (answer ec2_results));
           (cost_query (PList [PStr "Amazon S3"]) account_id start_date end_date,
            Raise throttled) ]
         lg).
Proof.
  apply (unhashable_name_raises_after_its_call (R := runtime)
           (event_of second_names_a_list) PNone
           (fresh [Ok (answer ec2_results); Raise throttled])
           (PStr second_names_a_list) start_date end_date account_id
           (PDict [(PStr "Service", PList [PStr "Amazon S3"])])
           (PList [PStr "Amazon S3"])
           [service_entry "Amazon EC2"] [PStr "Amazon EC2"] []).
  - reflexivity.
  - vm_compute. reflexivity.
  - repeat constructor.
  - repeat constructor.
  - reflexivity.
  - reflexivity.
  - reflexivity.
  - reflexivity.
  - reflexivity.
Defined.

(** The empty object in place of an array. *)
Lemma nothing_to_visit_is_an_empty_report_witness :
  lambda_handler (event_of "{}") PNone (fresh [Ok (answer ec2_results)]) =
    (Ok (PDict [(PStr "statusCode", PInt 200); (PStr "body", PStr "{}")]),
     mk_state [Ok (answer ec2_results)] [] [LogInfo (PDict [])]).
Proof.
  apply (nothing_to_visit_is_an_empty_report (R := runtime)
           (event_of "{}") PNone (fresh [Ok (answer ec2_results)])
           (PStr "{}") (PDict []) start_date end_date account_id).
  - reflexivity.
  - reflexivity.
  - right. left. reflexivity.
  - reflexivity.
  - reflexivity.
  - reflexivity.
Defined.

(** One entry given without the array around it. *)
Lemma services_not_an_array_raises_witness :
  exists e,
    lambda_handler (event_of entry_not_in_array) PNone (fresh [Ok (answer ec2_results)]) =
      (Raise e, fresh [Ok (answer ec2_results)]) /\
    exn_class_of e = TypeError.
Proof.
  apply (services_not_an_array_raises (R := runtime)
           (event_of entry_not_in_array) PNone (fresh [Ok (answer ec2_results)])
           (PStr entry_not_in_array) (PDict [(PStr "Service", PStr "Amazon EC2")])
           start_date end_date account_id).
  - reflexivity.
  - vm_compute. reflexivity.
  - reflexivity.
  - reflexivity.
  - reflexivity.
  - split; [discriminate | repeat constructor].
Defined.

(** The costs beside the names, and a context, change nothing. *)
Lemma only_the_names_matter_witness :
  lambda_handler (event_of two_services) PNone
    (fresh [Ok (answer ec2_results); Raise throttled]) =
  lambda_handler (event_of two_services_with_cost) (PStr "context")
    (fresh [Ok (answer ec2_results); Raise throttled]).
Proof.
  apply (only_the_names_matter (R := runtime)
           (event_of two_services) (event_of two_services_with_cost)
           PNone (PStr "context")
           (fresh [Ok (answer ec2_results); Raise throttled])
           (PStr two_services) (PStr two_services_with_cost)
           [service_entry "Amazon EC2"; service_entry "Amazon S3"]
           [ PDict [(PStr "Service", PStr "Amazon EC2"); (PStr "Cost", PFloat (25 # 2))];
             PDict [(PStr "Cost", PInt 3); (PStr "Service", PStr "Amazon S3")] ]
           two_names).
  - reflexivity.
  - vm_compute. reflexivity.
  - reflexivity.
  - vm_compute. reflexivity.
  - repeat constructor.
  - repeat constructor.
  - intros key Hkey. simpl in Hkey.
    destruct Hkey as [<- | [<- | [<- | []]]]; reflexivity.
Defined.

(** The second of two entries has no [Service]: the calls made are the
    queries for the names of a prefix of the entries. *)
Lemma calls_are_queries_of_a_prefix_witness :
  exists names,
    (length names <= 2)%nat /\
    Forall2 (fun entry name => service_of entry = Some name)
      (firstn (length names)
         [service_entry "Amazon EC2"; PDict [(PStr "Name", PStr "Amazon S3")]])
      names /\
    calls (snd (lambda_handler (event_of second_without_Service) PNone
                  (fresh [Raise throttled]))) =
      fst (api_run (map (fun name => cost_query name account_id start_date end_date) names)
             [Raise throttled]) /\
    world (snd (lambda_handler (event_of second_without_Service) PNone
                  (fresh [Raise throttled]))) =
      snd (api_run (map (fun name => cost_query name account_id start_date end_date) names)
             [Raise throttled]).
Proof.
  apply (proj2 (calls_are_queries_of_a_prefix (R := runtime)
                  (event_of second_without_Service) PNone (fresh [Raise throttled])
                  _ _
                  (surjective_pairing
                     (lambda_handler (event_of second_without_Service) PNone
                        (fresh [Raise throttled]))))
           (PStr second_without_Service)
           (PList [service_entry "Amazon EC2"; PDict [(PStr "Name", PStr "Amazon S3")]])
           [service_entry "Amazon EC2"; PDict [(PStr "Name", PStr "Amazon S3")]]
           start_date end_date account_id).
  - reflexivity.
  - vm_compute. reflexivity.
  - reflexivity.
  - reflexivity.
  - reflexivity.
  - reflexivity.
Defined.

(** Two services, the second call failing: one error record, then the info
    record with the report. *)
Lemma log_of_an_invocation_witness :
  exists (report : dict) (events : list api_event),
    response_200
      (dumps (PDict [(PStr "Amazon EC2", ec2_results); (PStr "Amazon S3", PNone)])) =
      PDict [(PStr "statusCode", PInt 200);
             (PStr "body", PStr (json_dumps (PDict report)))] /\
    calls (snd (lambda_handler (event_of two_services) PNone
                  (fresh [Ok (answer ec2_results)]))) = events /\
    log (snd (lambda_handler (event_of two_services) PNone
                (fresh [Ok (answer ec2_results)]))) =
      error_logs two_names events ++ [LogInfo (PDict report)] /\
    length (error_logs two_names events) = length (filter failed events) /\
    Forall (fun record => exists msg, record = LogError msg) (error_logs two_names events).
Proof.
  apply (log_of_an_invocation (R := runtime)
           (event_of two_services) PNone (fresh [Ok (answer ec2_results)])
           (PStr two_services)
           [service_entry "Amazon EC2"; service_entry "Amazon S3"] two_names
           _
           (snd (lambda_handler (event_of two_services) PNone
                   (fresh [Ok (answer ec2_results)])))).
  - reflexivity.
  - vm_compute. reflexivity.
  - repeat constructor.
  - reflexivity.
Defined.

(** The endpoint is down for all three calls. *)
Lemma every_call_failing_is_still_200_witness :
  exists lg,
    lambda_handler (event_of ec2_s3_ec2) PNone (fresh []) =
      (Ok (PDict [(PStr "statusCode", PInt 200);
                  (PStr "body",
                    PStr (json_dumps
                            (PDict [(PStr "Amazon EC2", PNone); (PStr "Amazon S3", PNone)])))]),
       mk_state []
         (fst (api_run [query_for "Amazon EC2"; query_for "Amazon S3"; query_for "Amazon EC2"]
                 []))
         lg).
Proof.
  apply (every_call_failing_is_still_200 (R := runtime)
           (event_of ec2_s3_ec2) PNone (fresh [])
           (PStr ec2_s3_ec2) start_date end_date account_id
           [service_entry "Amazon EC2"; service_entry "Amazon S3"; service_entry "Amazon EC2"]
           [PStr "Amazon EC2"; PStr "Amazon S3"; PStr "Amazon EC2"]).
  - reflexivity.
  - vm_compute. reflexivity.
  - repeat constructor.
  - repeat constructor.
  - reflexivity.
  - reflexivity.
  - reflexivity.
  - repeat constructor.
Defined.

End MoreRuns.
